(** * Virtual mouse: gesture classifier and engine loop

    A shallow embedding of [virtual_mouse/gesture_controller.py] and of the
    engine of [virtual_mouse/virtual_mouse.py].  Python's [float] and
    numpy's [float64] are IEEE 754 binary64 numbers; they are modelled by the
    primitive binary64 floats, so that every arithmetic operation and every
    comparison below rounds and compares exactly as the interpreter does. *)

From Stdlib Require Import ZArith List Bool String Floats Lia.
Import ListNotations.

Set Warnings "-inexact-float".

(** ** Python and numpy operations on floats *)

Module PyFloat.
Local Open Scope float_scope.

(** Exceptions that the modelled code can let escape. *)
Inductive PyExc : Set := ValueError | OverflowError.

(** [a > b]. *)
Definition gt (a b : float) : bool := b <? a.

(** The builtin [min(a, b)] on two floats: [b] when [b < a], else [a]. *)
Definition py_min (a b : float) : float := if b <? a then b else a.

(** The sign bit of a float.  The primitive floats have one NaN, without a
    sign; [signbit] answers [false] for it. *)
Definition signbit (x : float) : bool :=
  match Prim2SF x with
  | S754_zero s | S754_infinity s | S754_finite s _ _ => s
  | S754_nan => false
  end.

(** [math.copysign(x, y)]: the magnitude of [x] with the sign of [y]. *)
Definition copysign (x y : float) : float :=
  if signbit y then - abs x else abs x.

(** [np.clip(x, lo, hi)] on a float64: numpy computes
    [min(max(x, lo), hi)] where [max] and [min] return their first argument
    when it is NaN, and otherwise compare with [>] and [<]. *)
Definition np_max (a b : float) : float :=
  if is_nan a then a else if b <? a then a else b.
Definition np_min (a b : float) : float :=
  if is_nan a then a else if a <? b then a else b.
Definition np_clip (x lo hi : float) : float := np_min (np_max x lo) hi.

(** [math.dist((ax, ay), (bx, by))], the Euclidean distance of two points:
    the square root of the sum of the squared coordinate differences, each
    operation rounded.  (CPython guards the sum against overflow and loss
    of accuracy, so its result can differ from this one in the last place.) *)
Definition dist (ax ay bx by_ : float) : float :=
  let dx := ax - bx in
  let dy := ay - by_ in
  sqrt (dx * dx + dy * dy).

(** Truth value of a float in a condition: every float but the zeros. *)
Definition truthy (x : float) : bool := negb (x =? 0).

(** Conversion of an [int] operand in mixed arithmetic: round to nearest,
    ties to even.  (An [int] beyond the binary64 range, about [1.8e308],
    makes Python raise [OverflowError]; here it becomes an infinity, and
    [Checked.float_of_int] below keeps the exception.) *)
Definition float_of_int (n : Z) : float :=
  SF2Prim (binary_normalize prec emax n 0 false).

(** The integer part of [m * 2^e], towards zero, and the rounding of
    [m * 2^e] to the nearest integer, ties to even. *)
Definition trunc_pos (m : positive) (e : Z) : Z :=
  match e with
  | Zneg p => (Z.pos m / 2 ^ Z.pos p)%Z
  | _ => (Z.pos m * 2 ^ e)%Z
  end.

Definition round_pos (m : positive) (e : Z) : Z :=
  match e with
  | Zneg p =>
      let d := (2 ^ Z.pos p)%Z in
      let q := (Z.pos m / d)%Z in
      let r := (Z.pos m mod d)%Z in
      match (2 * r ?= d)%Z with
      | Lt => q
      | Gt => (q + 1)%Z
      | Eq => if Z.even q then q else (q + 1)%Z
      end
  | _ => (Z.pos m * 2 ^ e)%Z
  end.

Definition cond_opp (s : bool) (n : Z) : Z := if s then (- n)%Z else n.

(** [int(x)] for a float [x]: truncation towards zero; [ValueError] on NaN
    and [OverflowError] on an infinity. *)
Definition py_int (x : float) : PyExc + Z :=
  match Prim2SF x with
  | S754_nan => inl ValueError
  | S754_infinity _ => inl OverflowError
  | S754_zero _ => inr 0%Z
  | S754_finite s m e => inr (cond_opp s (trunc_pos m e))
  end.

(** [round(x)] for a float [x], as Python's builtin computes it: the
    nearest integer, ties to even.  The engine does not call it; it is the
    rounding that the description of the pointer mapper names, kept here to
    compare it with [py_int]. *)
Definition py_round (x : float) : PyExc + Z :=
  match Prim2SF x with
  | S754_nan => inl ValueError
  | S754_infinity _ => inl OverflowError
  | S754_zero _ => inr 0%Z
  | S754_finite s m e => inr (cond_opp s (round_pos m e))
  end.

End PyFloat.

(** ** utils/config.py *)

Module Config.
Local Open Scope float_scope.

Record GestureConfig : Set := {
  smoothing_alpha : float;
  click_threshold : float;
  drag_threshold : float;
  scroll_threshold : float;
  debounce_ms : Z;
  idle_timeout_sec : float
}.

Definition default_gesture : GestureConfig := {|
  smoothing_alpha := 0.25;
  click_threshold := 0.035;
  drag_threshold := 0.04;
  scroll_threshold := 0.12;
  debounce_ms := 180;
  idle_timeout_sec := 2
|}.

(** The fields of [AppConfig] that the engine loop reads. *)
Record AppConfig : Set := {
  show_debug : bool;
  max_inactive_seconds : float
}.

Definition default_app : AppConfig := {|
  show_debug := false;
  max_inactive_seconds := 10
|}.

Record Config : Set := {
  gesture : GestureConfig;
  app : AppConfig
}.

Definition default : Config := {|
  gesture := default_gesture;
  app := default_app
|}.

End Config.

(** ** virtual_mouse/hand_tracking.py *)

Module HandTracking.

Record HandLandmark : Set := {
  x : float;
  y : float;
  z : float;
  visibility : float
}.

Record HandObservation : Set := {
  frame_size : Z * Z;
  landmarks : list HandLandmark;
  handedness : string;
  timestamp : float
}.

End HandTracking.

(** ** virtual_mouse/gesture_controller.py *)

Module Gesture.
Import PyFloat Config HandTracking.
Local Open Scope float_scope.

Inductive GestureType : Set := IDLE | MOVE | CLICK | DRAG | SCROLL.

Definition GestureType_eqb (a b : GestureType) : bool :=
  match a, b with
  | IDLE, IDLE | MOVE, MOVE | CLICK, CLICK | DRAG, DRAG | SCROLL, SCROLL => true
  | _, _ => false
  end.

Record GestureResult : Set := {
  gesture : GestureType;
  pointer : option (float * float);
  scroll_delta : float;
  is_click : bool;
  is_drag : bool
}.

(** The fields of a [GestureController] (the logger apart). *)
Record GestureController : Set := {
  _config : GestureConfig;
  _smoothed_position : option (float * float);
  _last_pinched : bool;
  _last_event_time : float;
  _drag_active : bool
}.

(** [GestureController.__init__]. *)
Definition init (config : GestureConfig) : GestureController := {|
  _config := config;
  _smoothed_position := None;
  _last_pinched := false;
  _last_event_time := 0;
  _drag_active := false
|}.

Definition set_smoothed_position (self : GestureController) v := {|
  _config := _config self;
  _smoothed_position := v;
  _last_pinched := _last_pinched self;
  _last_event_time := _last_event_time self;
  _drag_active := _drag_active self
|}.

Definition set_last_pinched (self : GestureController) v := {|
  _config := _config self;
  _smoothed_position := _smoothed_position self;
  _last_pinched := v;
  _last_event_time := _last_event_time self;
  _drag_active := _drag_active self
|}.

Definition set_last_event_time (self : GestureController) v := {|
  _config := _config self;
  _smoothed_position := _smoothed_position self;
  _last_pinched := _last_pinched self;
  _last_event_time := v;
  _drag_active := _drag_active self
|}.

Definition set_drag_active (self : GestureController) v := {|
  _config := _config self;
  _smoothed_position := _smoothed_position self;
  _last_pinched := _last_pinched self;
  _last_event_time := _last_event_time self;
  _drag_active := v
|}.

(** [observation.landmarks[i]]; [None] stands for the [IndexError] that each
    caller catches. *)
Definition landmark_at (observation : HandObservation) (i : nat)
  : option HandLandmark :=
  nth_error (landmarks observation) i.

Definition _is_debounced (self : GestureController) (timestamp : float) : bool :=
  gt (timestamp - _last_event_time self)
     (float_of_int (debounce_ms (_config self)) / 1000).

Definition _compute_pointer (self : GestureController)
    (observation : HandObservation)
  : GestureController * option (float * float) :=
  match landmark_at observation 8 with
  | None => (self, None)
  | Some fingertip =>
      let position := (x fingertip, y fingertip) in
      let smoothed :=
        match _smoothed_position self with
        | None => position
        | Some prev =>
            let alpha := np_clip (smoothing_alpha (_config self)) 0 1 in
            (alpha * fst position + (1 - alpha) * fst prev,
             alpha * snd position + (1 - alpha) * snd prev)
        end in
      (set_smoothed_position self (Some smoothed),
       Some (np_clip (fst smoothed) 0 1, np_clip (snd smoothed) 0 1))
  end.

Definition _distance (observation : HandObservation) (idx_a idx_b : nat)
  : float :=
  match landmark_at observation idx_a, landmark_at observation idx_b with
  | Some pt_a, Some pt_b => dist (x pt_a) (y pt_a) (x pt_b) (y pt_b)
  | _, _ => 1
  end.

Definition _vertical_delta (observation : HandObservation) (idx_a idx_b : nat)
  : float :=
  match landmark_at observation idx_a, landmark_at observation idx_b with
  | Some pt_a, Some pt_b => y pt_b - y pt_a
  | _, _ => 0
  end.

(** The scroll check of [process]: the gesture and the scroll delta it
    leaves for the pinch check. *)
Definition scroll_check (config : GestureConfig) (middle_delta : float)
  : GestureType * float :=
  if gt (abs middle_delta) (scroll_threshold config)
  then (SCROLL, - copysign (py_min (abs middle_delta) 0.25) middle_delta)
  else (MOVE, 0).

(** [GestureController.process]: the controller after the call and the
    result returned. *)
Definition process (self : GestureController) (observation : HandObservation)
  : GestureController * GestureResult :=
  let '(self, pointer) := _compute_pointer self observation in
  let pinch_distance := _distance observation 4 8 in
  let middle_delta := _vertical_delta observation 8 12 in
  let now := timestamp observation in
  let '(gesture, scroll_delta) := scroll_check (_config self) middle_delta in
  let '(self, gesture, is_click, is_drag) :=
    if pinch_distance <? click_threshold (_config self) then
      let '(self, gesture, is_click, is_drag) :=
        if negb (_last_pinched self) && _is_debounced self now
        then (set_drag_active (set_last_event_time self now) true,
              CLICK, true, false)
        else (set_drag_active self true, DRAG, false, true) in
      (set_last_pinched self true, gesture, is_click, is_drag)
    else
      (set_drag_active (set_last_pinched self false) false,
       gesture, false, false) in
  (self,
   {| gesture := match pointer with Some _ => gesture | None => IDLE end;
      pointer := pointer;
      scroll_delta := scroll_delta;
      is_click := is_click;
      is_drag := is_drag |}).

(** [GestureController.reset]. *)
Definition reset (self : GestureController) : GestureController :=
  set_drag_active (set_last_pinched (set_smoothed_position self None) false)
                  false.

(** A coordinate inside the unit interval. *)
Definition in_unit (c : float) : bool := (0 <=? c) && (c <=? 1).

(** The two conditions that [process] tests. *)
Definition pinched (self : GestureController) (observation : HandObservation)
  : bool :=
  _distance observation 4 8 <? click_threshold (_config self).

Definition scrolling (self : GestureController)
    (observation : HandObservation) : bool :=
  gt (abs (_vertical_delta observation 8 12)) (scroll_threshold (_config self)).

(** A controller in use: the calls that the engine makes on it, and the
    results of the [process] calls among them, in order. *)
Inductive Call : Set :=
| Process (observation : HandObservation)
| Reset.

Fixpoint calls (self : GestureController) (cs : list Call)
  : GestureController * list GestureResult :=
  match cs with
  | [] => (self, [])
  | Process observation :: cs =>
      let '(self, result) := process self observation in
      let '(self, results) := calls self cs in
      (self, result :: results)
  | Reset :: cs => calls (reset self) cs
  end.

End Gesture.

(** ** virtual_mouse/virtual_mouse.py *)

Module Engine.
Import PyFloat HandTracking.
Local Open Scope float_scope.

(** The calls of the [PointerController] protocol that the engine makes
    (always with the default button and [dx]). *)
Inductive PointerCall : Set :=
| Move (x y : Z)
| Click
| Press
| Release
| Scroll (dy : float).

(** What the engine does to its collaborators, in the order it does it. *)
Inductive Effect : Set :=
| CameraStart
| CameraStop
| CameraSetIdle (enabled : bool)
| GesturesReset
| GesturesProcess (observation : HandObservation)
| Pointer (call : PointerCall)
| RenderDebug
| StopEventSet
| Sleep.

Record EngineResult : Set := { reason : string }.

(** The fields of a [VirtualMouseEngine] that change during a run.
    [_render_debug] may clear [show_debug] in the configuration. *)
Record VirtualMouseEngine : Set := {
  _config : Config.Config;
  _gestures : Gesture.GestureController;
  _dragging : bool
}.

(** [VirtualMouseEngine.__init__]. *)
Definition init (config : Config.Config) : VirtualMouseEngine := {|
  _config := config;
  _gestures := Gesture.init (Config.gesture config);
  _dragging := false
|}.

Definition set_gestures (self : VirtualMouseEngine) v := {|
  _config := _config self;
  _gestures := v;
  _dragging := _dragging self
|}.

Definition set_dragging (self : VirtualMouseEngine) v := {|
  _config := _config self;
  _gestures := _gestures self;
  _dragging := v
|}.

Definition set_show_debug (self : VirtualMouseEngine) v := {|
  _config :=
    {| Config.gesture := Config.gesture (_config self);
       Config.app :=
         {| Config.show_debug := v;
            Config.max_inactive_seconds :=
              Config.max_inactive_seconds (Config.app (_config self)) |} |};
  _gestures := _gestures self;
  _dragging := _dragging self
|}.

(** The first block of [_apply_gesture]: the move to the pixel under the
    pointer.  [int] raises on a NaN or an infinity, before any call. *)
Definition move_call (pointer : option (float * float)) (screen_w screen_h : Z)
  : PyExc + list PointerCall :=
  match pointer with
  | None => inr []
  | Some (px, py) =>
      match py_int (px * float_of_int screen_w) with
      | inl e => inl e
      | inr x =>
          match py_int (py * float_of_int screen_h) with
          | inl e => inl e
          | inr y => inr [Move x y]
          end
      end
  end.

(** [VirtualMouseEngine._apply_gesture]: the engine after the call and the
    pointer calls made, or the exception raised by [int]. *)
Definition _apply_gesture (self : VirtualMouseEngine)
    (gesture : Gesture.GestureResult) (screen_w screen_h : Z)
  : PyExc + (VirtualMouseEngine * list PointerCall) :=
  match move_call (Gesture.pointer gesture) screen_w screen_h with
  | inl e => inl e
  | inr moves =>
      let '(self, buttons) :=
        if Gesture.GestureType_eqb (Gesture.gesture gesture) Gesture.CLICK
           && Gesture.is_click gesture
        then
          if _dragging self
          then (set_dragging self false, [Click; Release])
          else (self, [Click])
        else if Gesture.GestureType_eqb (Gesture.gesture gesture) Gesture.DRAG
        then
          if negb (_dragging self)
          then (set_dragging self true, [Press])
          else (self, [])
        else
          if _dragging self
          then (set_dragging self false, [Release])
          else (self, []) in
      let scrolls :=
        if Gesture.GestureType_eqb (Gesture.gesture gesture) Gesture.SCROLL
           && truthy (Gesture.scroll_delta gesture)
        then [Scroll (Gesture.scroll_delta gesture * 120)]
        else [] in
      inr (self, moves ++ buttons ++ scrolls)
  end.

(** What one iteration of the loop of [run] receives from outside: whether
    the stop event is set when the frame arrives, what the tracker detects
    in the frame, the event loop's clock, whether [cv2.imshow] works and
    whether [_poll_exit_key] sees the exit key (the last two are consulted
    only when the debug view is on). *)
Record Tick : Set := {
  stop_is_set : bool;
  detected : option HandObservation;
  loop_time : float;
  imshow_ok : bool;
  exit_key : bool
}.

(** How an iteration ends. *)
Inductive Flow : Set :=
| Continue
| Break (reason : string)
| Raise (e : PyExc).

(** [_render_debug] followed by [_poll_exit_key], under [if show_debug]. *)
Definition debug_view (self : VirtualMouseEngine) (t : Tick)
  : VirtualMouseEngine * list Effect * bool :=
  if Config.show_debug (Config.app (_config self)) then
    let self' := if imshow_ok t then self else set_show_debug self false in
    if exit_key t
    then (self', [RenderDebug; StopEventSet], true)
    else (self', [RenderDebug], false)
  else (self, [], false).

(** One iteration of the [async for] loop of [run]. *)
Definition tick (screen_w screen_h : Z) (self : VirtualMouseEngine)
    (last_seen : float) (t : Tick)
  : VirtualMouseEngine * float * list Effect * Flow :=
  if stop_is_set t then (self, last_seen, [], Break "stopped")
  else
    let now := loop_time t in
    match detected t with
    | None =>
        let self := set_gestures self (Gesture.reset (_gestures self)) in
        let '(self, shown, exit) := debug_view self t in
        let effects := [GesturesReset; CameraSetIdle true] ++ shown in
        let max_inactive :=
          Config.max_inactive_seconds (Config.app (_config self)) in
        if exit then (self, last_seen, effects, Break "stopped")
        else if gt max_inactive 0 && gt (now - last_seen) max_inactive
        then (self, last_seen, effects, Break "idle_timeout")
        else (self, last_seen, effects ++ [Sleep], Continue)
    | Some observation =>
        let last_seen := timestamp observation in
        let '(gestures, gesture) :=
          Gesture.process (_gestures self) observation in
        let self := set_gestures self gestures in
        let effects := [CameraSetIdle false; GesturesProcess observation] in
        match _apply_gesture self gesture screen_w screen_h with
        | inl e => (self, last_seen, effects, Raise e)
        | inr (self, calls) =>
            let '(self, shown, exit) := debug_view self t in
            let effects := effects ++ map Pointer calls ++ shown in
            (self, last_seen, effects,
             if exit then Break "stopped" else Continue)
        end
    end.

(** The [async for] loop over the frames that the camera yields; [reason]
    is ["stopped"] unless an iteration breaks with another one. *)
Fixpoint loop (screen_w screen_h : Z) (self : VirtualMouseEngine)
    (last_seen : float) (ticks : list Tick)
  : VirtualMouseEngine * list Effect * (PyExc + string) :=
  match ticks with
  | [] => (self, [], inr "stopped"%string)
  | t :: ticks =>
      let '(self, last_seen, effects, flow) :=
        tick screen_w screen_h self last_seen t in
      match flow with
      | Continue =>
          let '(self, later, outcome) :=
            loop screen_w screen_h self last_seen ticks in
          (self, effects ++ later, outcome)
      | Break reason => (self, effects, inr reason)
      | Raise e => (self, effects, inl e)
      end
  end.

(** The [finally] block of [run]. *)
Definition finally_ (self : VirtualMouseEngine)
  : VirtualMouseEngine * list Effect :=
  if _dragging self
  then (set_dragging self false, [CameraStop; Pointer Release])
  else (self, [CameraStop]).

(** The loop from a given iteration on, with the [finally] block. *)
Definition run_from (screen_w screen_h : Z) (self : VirtualMouseEngine)
    (last_seen : float) (ticks : list Tick)
  : VirtualMouseEngine * list Effect * (PyExc + EngineResult) :=
  let '(self, effects, outcome) :=
    loop screen_w screen_h self last_seen ticks in
  let '(self, cleanup) := finally_ self in
  (self, effects ++ cleanup,
   match outcome with
   | inl e => inl e
   | inr reason => inr {| reason := reason |}
   end).

(** [VirtualMouseEngine.run], for a pointer whose [screen_size()] is
    [screen], an event loop whose clock shows [start] at the call, and the
    iterations [ticks]. *)
Definition run (self : VirtualMouseEngine) (screen : Z * Z) (start : float)
    (ticks : list Tick)
  : VirtualMouseEngine * list Effect * (PyExc + EngineResult) :=
  let '(self, effects, outcome) :=
    run_from (fst screen) (snd screen) self start ticks in
  (self, CameraStart :: effects, outcome).

(** The iterations [ticks] when every one of them continues the loop: the
    engine and [last_seen] after them and their effects. *)
Fixpoint advance (screen_w screen_h : Z) (self : VirtualMouseEngine)
    (last_seen : float) (ticks : list Tick)
  : option (VirtualMouseEngine * float * list Effect) :=
  match ticks with
  | [] => Some (self, last_seen, [])
  | t :: ticks =>
      let '(self, last_seen, effects, flow) :=
        tick screen_w screen_h self last_seen t in
      match flow with
      | Continue =>
          match advance screen_w screen_h self last_seen ticks with
          | Some (self, last_seen, later) =>
              Some (self, last_seen, effects ++ later)
          | None => None
          end
      | _ => None
      end
  end.

(** How many times the effects release the button. *)
Definition is_release (e : Effect) : bool :=
  match e with Pointer Release => true | _ => false end.

Definition is_pointer (e : Effect) : bool :=
  match e with Pointer _ => true | _ => false end.

Definition releases (effects : list Effect) : nat :=
  List.length (filter is_release effects).

End Engine.

(** ** tests/test_gestures.py: the observations of the unit tests *)

Module TestGestures.
Import HandTracking.
Local Open Scope float_scope.

Definition mk (px py : float) : HandLandmark :=
  {| x := px; y := py; z := 0; visibility := 1 |}.

Fixpoint set_nth {A} (l : list A) (i : nat) (v : A) : list A :=
  match l, i with
  | [], _ => []
  | _ :: t, O => v :: t
  | h :: t, S j => h :: set_nth t j v
  end.

Definition _make_landmarks (index_tip thumb_tip middle_tip : float * float)
  : list HandLandmark :=
  let landmarks := repeat (mk 0.5 0.5) 21 in
  let landmarks := set_nth landmarks 8 (mk (fst index_tip) (snd index_tip)) in
  let landmarks := set_nth landmarks 4 (mk (fst thumb_tip) (snd thumb_tip)) in
  set_nth landmarks 12 (mk (fst middle_tip) (snd middle_tip)).

Definition _observation (index_tip thumb_tip middle_tip : float * float)
    (timestamp : float) : HandObservation :=
  {| frame_size := (640, 480)%Z;
     landmarks := _make_landmarks index_tip thumb_tip middle_tip;
     handedness := "Right";
     timestamp := timestamp |}.

(** The configurations of [test_pinch_triggers_click] and
    [test_scroll_detects_vertical_delta]. *)
Definition click_config : Config.GestureConfig := {|
  Config.smoothing_alpha := 0.25;
  Config.click_threshold := 0.05;
  Config.drag_threshold := 0.04;
  Config.scroll_threshold := 0.12;
  Config.debounce_ms := 50;
  Config.idle_timeout_sec := 2
|}.

Definition scroll_config : Config.GestureConfig := {|
  Config.smoothing_alpha := 0.25;
  Config.click_threshold := 0.035;
  Config.drag_threshold := 0.04;
  Config.scroll_threshold := 0.05;
  Config.debounce_ms := 180;
  Config.idle_timeout_sec := 2
|}.

End TestGestures.

(** ** Observations, configurations and iterations of the scenarios *)

Module Scenarios.
Import Config HandTracking TestGestures.
Local Open Scope float_scope.

(** Index tip at (0.5, 0.5), thumb tip at (0.48, 0.5), middle tip at
    (0.5, 0.7): a pinch together with a scroll offset. *)
Definition pinch_and_scroll (timestamp : float) : HandObservation :=
  _observation (0.5, 0.5) (0.48, 0.5) (0.5, 0.7) timestamp.

(** [GestureConfig(smoothing_alpha=0.5)] and the two observations of
    [test_pointer_smoothing_applies]. *)
Definition half_smoothing : GestureConfig := {|
  smoothing_alpha := 0.5;
  click_threshold := 0.035;
  drag_threshold := 0.04;
  scroll_threshold := 0.12;
  debounce_ms := 180;
  idle_timeout_sec := 2
|}.

Definition smoothing_first : HandObservation :=
  _observation (0.1, 0.1) (0, 0) (0.1, 0.2) 0.1.

Definition smoothing_second : HandObservation :=
  _observation (0.9, 0.9) (0, 0) (0.9, 0.8) 0.2.

(** Middle tip 0.3 below the index tip, thumb away. *)
Definition scroll_down : HandObservation :=
  _observation (0.5, 0) (0, 0) (0.5, 0.3) 0.1.

(** A pinch without scroll offset, an open hand, and an observation cut
    after eight landmarks. *)
Definition pinch (timestamp : float) : HandObservation :=
  _observation (0.6, 0.6) (0.58, 0.6) (0.6, 0.6) timestamp.

Definition open_hand (timestamp : float) : HandObservation :=
  _observation (0.6, 0.6) (0.2, 0.6) (0.6, 0.6) timestamp.

Definition cut_short (timestamp : float) : HandObservation :=
  {| frame_size := (640, 480)%Z;
     landmarks := repeat (mk 0.5 0.5) 8;
     handedness := "Right";
     timestamp := timestamp |}.

(** Iterations of the engine loop: a frame with a hand and a frame
    without, the debug view off. *)
Definition seen (observation : HandObservation) : Engine.Tick :=
  {| Engine.stop_is_set := false;
     Engine.detected := Some observation;
     Engine.loop_time := timestamp observation;
     Engine.imshow_ok := true;
     Engine.exit_key := false |}.

Definition lost (now : float) : Engine.Tick :=
  {| Engine.stop_is_set := false;
     Engine.detected := None;
     Engine.loop_time := now;
     Engine.imshow_ok := true;
     Engine.exit_key := false |}.

End Scenarios.

(** ** virtual_mouse/camera_module.py *)

Module Camera.

Record CameraConfig : Set := {
  index : Z;
  resolution : Z * Z;
  fps : Z;
  idle_resolution : Z * Z;
  idle_frame_skip : Z;
  warmup_frames : Z;
  mirror : bool
}.

Definition default_camera : CameraConfig := {|
  index := 0;
  resolution := (960, 540)%Z;
  fps := 30;
  idle_resolution := (640, 360)%Z;
  idle_frame_skip := 2;
  warmup_frames := 12;
  mirror := true
|}.

(** The calls that a [CameraStream] makes on its [cv2.VideoCapture]. *)
Inductive CaptureCall : Set :=
| SetWidth (width : Z)
| SetHeight (height : Z)
| ReadFrame
| ReleaseCapture.

(** The fields of a [CameraStream] that its methods test and write:
    whether a capture is held, whether the events [_running] and [_idle]
    are set, and the resolution last applied. *)
Record CameraStream : Set := {
  _config : CameraConfig;
  _capture : bool;
  _running : bool;
  _resolution : Z * Z;
  _idle : bool
}.

(** [CameraStream.__init__]. *)
Definition init (config : CameraConfig) : CameraStream := {|
  _config := config;
  _capture := false;
  _running := false;
  _resolution := resolution config;
  _idle := false
|}.

Definition set_resolution (self : CameraStream) v := {|
  _config := _config self;
  _capture := _capture self;
  _running := _running self;
  _resolution := v;
  _idle := _idle self
|}.

Definition set_idle_flag (self : CameraStream) v := {|
  _config := _config self;
  _capture := _capture self;
  _running := _running self;
  _resolution := _resolution self;
  _idle := v
|}.

Definition set_running (self : CameraStream) (capture running : bool) := {|
  _config := _config self;
  _capture := capture;
  _running := running;
  _resolution := _resolution self;
  _idle := _idle self
|}.

(** [CameraStream._apply_resolution]. *)
Definition _apply_resolution (self : CameraStream) (res : Z * Z)
  : CameraStream * list CaptureCall :=
  if negb (_capture self) then (self, [])
  else (set_resolution self res, [SetWidth (fst res); SetHeight (snd res)]).

(** [CameraStream.set_idle]. *)
Definition set_idle (self : CameraStream) (enabled : bool)
  : CameraStream * list CaptureCall :=
  if enabled then
    if negb (_idle self)
    then _apply_resolution (set_idle_flag self true)
           (idle_resolution (_config self))
    else (self, [])
  else
    if _idle self
    then _apply_resolution (set_idle_flag self false)
           (resolution (_config self))
    else (self, []).

(** [CameraStream._warmup]: [range(warmup_frames)] reads. *)
Definition _warmup (self : CameraStream) : list CaptureCall :=
  if negb (_capture self) then []
  else repeat ReadFrame (Z.to_nat (warmup_frames (_config self))).

(** [CameraStream.start], given whether the capture opens; [None] stands
    for the [RuntimeError] raised when it does not. *)
Definition start (self : CameraStream) (opened : bool)
  : option (CameraStream * list CaptureCall) :=
  if _running self then Some (self, [])
  else if negb opened then None
  else
    let self := set_running self true (_running self) in
    let '(self, calls) := _apply_resolution self (resolution (_config self)) in
    let self := set_running self (_capture self) true in
    Some (self, calls ++ _warmup self).

(** [CameraStream.stop]. *)
Definition stop (self : CameraStream) : CameraStream * list CaptureCall :=
  if negb (_running self) then (self, [])
  else
    let self := set_running self (_capture self) false in
    if _capture self
    then (set_running self false false, [ReleaseCapture])
    else (self, []).

(** One iteration of the [while] loop of [_update_loop]: what
    [capture.read()] returns and whether [_idle] is set when the loop
    tests it. *)
Record Read (frame : Set) : Set := {
  ret : bool;
  image : frame;
  idle_now : bool
}.
Arguments ret {frame}.
Arguments image {frame}.
Arguments idle_now {frame}.

(** [CameraStream._update_loop] over the iterations made while [_running]
    is set: the counter [idle_skip] at the end and the frames stored in
    [_frame], in order.  ([%] with a positive right operand is [mod].) *)
Fixpoint _update_loop {frame : Set} (config : CameraConfig) (idle_skip : Z)
    (reads : list (Read frame)) : Z * list frame :=
  match reads with
  | [] => (idle_skip, [])
  | r :: reads =>
      if negb (ret r) then _update_loop config idle_skip reads
      else if idle_now r && (0 <? idle_frame_skip config)%Z then
        let idle_skip := ((idle_skip + 1) mod (idle_frame_skip config + 1))%Z in
        if negb (idle_skip =? 0)%Z
        then _update_loop config idle_skip reads
        else
          let '(last, stored) := _update_loop config idle_skip reads in
          (last, image r :: stored)
      else
        let '(last, stored) := _update_loop config idle_skip reads in
        (last, image r :: stored)
  end.

(** The calls [set_idle] of a list of effects of the engine, applied to
    a camera in order. *)
Fixpoint set_idles (self : CameraStream) (flags : list bool)
  : CameraStream * list CaptureCall :=
  match flags with
  | [] => (self, [])
  | enabled :: flags =>
      let '(self, calls) := set_idle self enabled in
      let '(self, later) := set_idles self flags in
      (self, calls ++ later)
  end.

(** The resolution last applied is the one of the mode that [_idle]
    tells. *)
Definition matches_mode (self : CameraStream) : Prop :=
  _resolution self
  = if _idle self then idle_resolution (_config self)
    else resolution (_config self).

(** A read that succeeds while the camera is idle. *)
Definition idle_read {frame : Set} (r : Read frame) : Prop :=
  ret r = true /\ idle_now r = true.

End Camera.

(** ** virtual_mouse/virtual_mouse.py: the pointer controller and the
    application *)

Module PyAutoGui.
Import PyFloat.
Local Open Scope float_scope.




End PyAutoGui.

Module App.

(** What [VirtualMouseApp.run] does, in order. *)
Inductive AppEffect : Set :=
| AwaitActivation
| EngineRun.

(** One iteration of the [while] loop of [VirtualMouseApp.run]: whether
    [_shutdown] is set at the loop test, after the wait for activation and
    after the engine run, and whether the stop event of the run is set when
    the run returns. *)
Record Round : Set := {
  shutdown_at_test : bool;
  shutdown_before_run : bool;
  shutdown_after_run : bool;
  engine_stop_set : bool
}.

(** The loop of [VirtualMouseApp.run] over the iterations [rounds]. *)
Fixpoint loop (should_auto_start : bool) (rounds : list Round)
  : list AppEffect :=
  match rounds with
  | [] => []
  | r :: rounds =>
      if shutdown_at_test r then []
      else
        let waited := if negb should_auto_start then [AwaitActivation] else [] in
        if shutdown_before_run r then waited
        else
          waited ++ EngineRun ::
          (if shutdown_after_run r || engine_stop_set r then []
           else loop false rounds)
  end.

(** [VirtualMouseApp.run(auto_start)] with [config.app.auto_start] as
    the default. *)
Definition run (config_auto_start : bool) (auto_start : option bool)
    (rounds : list Round) : list AppEffect :=
  loop (match auto_start with None => config_auto_start | Some b => b end)
       rounds.

(** The effects of a loop that waits for an activation before each
    run: pairs of a wait and a run, and maybe a last wait. *)
Fixpoint waits_before_runs (effects : list AppEffect) : Prop :=
  match effects with
  | [] => True
  | [AwaitActivation] => True
  | AwaitActivation :: EngineRun :: effects => waits_before_runs effects
  | _ => False
  end.

End App.

(** ** Observers of a run *)

Module Trace.

(** The [press] and [release] calls of a list of effects against the
    flag [held] that the engine keeps in [_dragging] ([click] calls are not
    counted): [None] when a press comes while the flag is set or a release
    while it is not. *)
Fixpoint held_after (held : bool) (effects : list Engine.Effect)
  : option bool :=
  match effects with
  | [] => Some held
  | Engine.Pointer Engine.Press :: effects =>
      if held then None else held_after true effects
  | Engine.Pointer Engine.Release :: effects =>
      if held then held_after false effects else None
  | _ :: effects => held_after held effects
  end.

(** The arguments of the [set_idle] calls among the effects. *)
Fixpoint idle_flags (effects : list Engine.Effect) : list bool :=
  match effects with
  | [] => []
  | Engine.CameraSetIdle enabled :: effects => enabled :: idle_flags effects
  | _ :: effects => idle_flags effects
  end.

Definition is_process (e : Engine.Effect) : bool :=
  match e with Engine.GesturesProcess _ => true | _ => false end.

Definition is_scroll (e : Engine.Effect) : bool :=
  match e with Engine.Pointer (Engine.Scroll _) => true | _ => false end.

Definition is_click_call (e : Engine.Effect) : bool :=
  match e with Engine.Pointer Engine.Click => true | _ => false end.

(** The smoothed position kept by a controller, and the pointer of a
    result, have a NaN as their first coordinate. *)
Definition poisoned (self : Gesture.GestureController) : Prop :=
  match Gesture._smoothed_position self with
  | Some (sx, _) => is_nan sx = true
  | None => False
  end.

Definition nan_pointer (result : Gesture.GestureResult) : Prop :=
  match Gesture.pointer result with
  | Some (px, _) => is_nan px = true
  | None => False
  end.

(** What the frame of an iteration asks of the classifier and of the
    camera, and the time at which a hand was last seen after a list of
    iterations. *)
Definition call_of_tick (t : Engine.Tick) : Gesture.Call :=
  match Engine.detected t with
  | Some observation => Gesture.Process observation
  | None => Gesture.Reset
  end.

Definition no_hand (t : Engine.Tick) : bool :=
  match Engine.detected t with Some _ => false | None => true end.

Definition last_seen_after (start : float) (ticks : list Engine.Tick) : float :=
  fold_left
    (fun last_seen t =>
       match Engine.detected t with
       | Some observation => HandTracking.timestamp observation
       | None => last_seen
       end)
    ticks start.

(** A float that is a number other than zero, or an infinity. *)
Definition nonzero (a : float) : Prop :=
  match Prim2SF a with
  | S754_finite _ _ _ | S754_infinity _ => True
  | S754_zero _ | S754_nan => False
  end.

End Trace.

(** ** [process] with the exception of the conversion of [debounce_ms] *)

Module Checked.
Import PyFloat Config HandTracking Gesture.
Local Open Scope float_scope.

(** The conversion of an [int] operand of [/] to a float as Python makes
    it: round to nearest, ties to even, and [OverflowError] for an [int]
    that rounds to [2^1024] or beyond in magnitude. *)
Definition float_of_int (n : Z) : PyExc + float :=
  match binary_normalize prec emax n 0 false with
  | S754_infinity _ => inl OverflowError
  | f => inr (SF2Prim f)
  end.

(** [GestureController._is_debounced]: the difference of the timestamps
    is computed first, then [debounce_ms / 1000.0], which can raise. *)
Definition _is_debounced (self : GestureController) (timestamp : float)
  : PyExc + bool :=
  let elapsed := timestamp - _last_event_time self in
  match float_of_int (debounce_ms (_config self)) with
  | inl e => inl e
  | inr ms => inr (gt elapsed (ms / 1000))
  end.

(** [GestureController.process]: the controller after the call, and the
    result returned or the exception raised.  [_is_debounced] is called
    only for a pinch that follows a frame without one; when it raises, the
    smoothed position is already written and nothing else is. *)
Definition process (self : GestureController) (observation : HandObservation)
  : GestureController * (PyExc + GestureResult) :=
  let '(self, pointer) := _compute_pointer self observation in
  let pinch_distance := _distance observation 4 8 in
  let middle_delta := _vertical_delta observation 8 12 in
  let now := timestamp observation in
  let '(gesture, scroll_delta) := scroll_check (_config self) middle_delta in
  let finish (self : GestureController) (gesture : GestureType)
        (is_click is_drag : bool) :=
    (self,
     inr {| gesture := match pointer with Some _ => gesture | None => IDLE end;
            pointer := pointer;
            scroll_delta := scroll_delta;
            is_click := is_click;
            is_drag := is_drag |}) in
  if pinch_distance <? click_threshold (_config self) then
    let debounced :=
      if negb (_last_pinched self) then _is_debounced self now
      else inr false in
    match debounced with
    | inl e => (self, inl e)
    | inr true =>
        finish (set_last_pinched
                  (set_drag_active (set_last_event_time self now) true) true)
               CLICK true false
    | inr false =>
        finish (set_last_pinched (set_drag_active self true) true)
               DRAG false true
    end
  else
    finish (set_drag_active (set_last_pinched self false) false)
           gesture false false.

End Checked.

(** ** The button of the pointer *)

Module Button.

(** The left button under the calls of a list of effects, from the state
    [pressed].  [press] holds it and [release] lets it go;
    [PyAutoGuiPointerController.click] is [pyautogui.click], a press and a
    release, so the button is up after it.  The answer is [None] when
    [press] finds the button down, when [release] finds it up, or when
    [click] finds it down, with one exception, the pair of calls with which
    [_apply_gesture] ends a drag by a click: [click] on the held button and
    [release] directly after it, which then finds the button up. *)
Fixpoint button_after (pressed : bool) (effects : list Engine.Effect)
  : option bool :=
  match effects with
  | [] => Some pressed
  | Engine.Pointer Engine.Press :: effects =>
      if pressed then None else button_after true effects
  | Engine.Pointer Engine.Release :: effects =>
      if pressed then button_after false effects else None
  | Engine.Pointer Engine.Click :: effects =>
      if pressed then
        match effects with
        | Engine.Pointer Engine.Release :: effects => button_after false effects
        | _ => None
        end
      else button_after false effects
  | _ :: effects => button_after pressed effects
  end.

End Button.

(** ** Configurations at the edge *)

Module Corner.

(** A configuration of the engine with the idle timeout off. *)
Definition no_timeout : Config.Config := {|
  Config.gesture := Config.default_gesture;
  Config.app := {| Config.show_debug := false;
                   Config.max_inactive_seconds := 0 |}
|}.

(** A configuration whose click threshold lies above the distance that
    stands for a missing fingertip, and whose [debounce_ms] no float
    holds. *)
Definition wide_click_huge_debounce : Config.GestureConfig := {|
  Config.smoothing_alpha := 0.25;
  Config.click_threshold := 2;
  Config.drag_threshold := 0.04;
  Config.scroll_threshold := 0.12;
  Config.debounce_ms := 10 ^ 400;
  Config.idle_timeout_sec := 2
|}.

End Corner.

(** * Facts *)

Import PyFloat Config HandTracking Gesture Scenarios.
Open Scope float_scope.

(** ** Comparisons and signs of binary64 floats *)

Section FloatFacts.
Local Open Scope float_scope.

Lemma SFcompare_swap (f1 f2 : spec_float) :
  SFcompare f2 f1 = option_map CompOpp (SFcompare f1 f2).
Proof.
  destruct f1 as [s1|s1| |s1 m1 e1], f2 as [s2|s2| |s2 m2 e2]; simpl;
    try destruct s1; try destruct s2; simpl; try reflexivity.
  all: rewrite (Z.compare_antisym e1 e2);
    change (Pos.compare_cont Eq m2 m1) with (m2 ?= m1)%positive;
    change (Pos.compare_cont Eq m1 m2) with (m1 ?= m2)%positive;
    rewrite (Pos.compare_antisym m1 m2);
    destruct (e1 ?= e2)%Z, (m1 ?= m2)%positive; reflexivity.
Qed.

Lemma SFcompare_nan_iff (f1 f2 : spec_float) :
  SFcompare f1 f2 = None <-> f1 = S754_nan \/ f2 = S754_nan.
Proof.
  destruct f1 as [s1|s1| |s1 m1 e1], f2 as [s2|s2| |s2 m2 e2]; simpl;
    split; intros H; try discriminate; auto;
    destruct H as [H|H]; discriminate.
Qed.

Lemma is_nan_Prim2SF (a : float) :
  is_nan a = true <-> Prim2SF a = S754_nan.
Proof.
  unfold is_nan. rewrite eqb_spec. unfold SFeqb.
  destruct (SFcompare (Prim2SF a) (Prim2SF a)) as [c|] eqn:E.
  - assert (N : Prim2SF a <> S754_nan).
    { intros H. rewrite H in E. discriminate. }
    pose proof (SFcompare_swap (Prim2SF a) (Prim2SF a)) as S.
    rewrite E in S. simpl in S.
    destruct c; try discriminate. simpl. split; [discriminate|contradiction].
  - apply SFcompare_nan_iff in E. simpl. split; [tauto|reflexivity].
Qed.

Lemma not_nan_Prim2SF (a : float) :
  is_nan a = false <-> Prim2SF a <> S754_nan.
Proof.
  rewrite <- is_nan_Prim2SF. destruct (is_nan a); split; congruence.
Qed.

(** [a < b] excludes [b < a]. *)
Lemma ltb_asym (a b : float) : (a <? b) = true -> (b <? a) = false.
Proof.
  rewrite !ltb_spec. unfold SFltb.
  rewrite (SFcompare_swap (Prim2SF a) (Prim2SF b)).
  destruct (SFcompare (Prim2SF a) (Prim2SF b)) as [[]|]; simpl; congruence.
Qed.

(** A comparison that holds has no NaN operand. *)
Lemma ltb_not_nan (a b : float) :
  (a <? b) = true -> is_nan a = false /\ is_nan b = false.
Proof.
  rewrite ltb_spec, !not_nan_Prim2SF. unfold SFltb. intros H.
  split; intros N; rewrite N in H; simpl in H;
    [|destruct (Prim2SF a)]; discriminate.
Qed.

(** On numbers, [b <= a] holds when [a < b] does not. *)
Lemma nlt_leb (a b : float) :
  is_nan a = false -> is_nan b = false -> (a <? b) = false -> (b <=? a) = true.
Proof.
  rewrite ltb_spec, leb_spec, !not_nan_Prim2SF. unfold SFltb, SFleb.
  intros Na Nb. rewrite (SFcompare_swap (Prim2SF a) (Prim2SF b)).
  destruct (SFcompare (Prim2SF a) (Prim2SF b)) as [[]|] eqn:E; simpl;
    try congruence.
  apply SFcompare_nan_iff in E. tauto.
Qed.

Lemma ltb_leb (a b : float) : (a <? b) = true -> (a <=? b) = true.
Proof.
  rewrite ltb_spec, leb_spec. unfold SFltb, SFleb.
  destruct (SFcompare (Prim2SF a) (Prim2SF b)) as [[]|]; congruence.
Qed.

Lemma abs_idem (a : float) : abs (abs a) = abs a.
Proof.
  apply Prim2SF_inj. rewrite !abs_spec. now destruct (Prim2SF a).
Qed.

Lemma abs_opp (a : float) : abs (- a) = abs a.
Proof.
  apply Prim2SF_inj. rewrite !abs_spec, opp_spec. now destruct (Prim2SF a).
Qed.

Lemma is_nan_abs (a : float) : is_nan (abs a) = is_nan a.
Proof.
  destruct (is_nan a) eqn:E.
  - apply is_nan_Prim2SF. apply is_nan_Prim2SF in E.
    now rewrite abs_spec, E.
  - apply not_nan_Prim2SF. apply not_nan_Prim2SF in E.
    rewrite abs_spec. now destruct (Prim2SF a).
Qed.

Lemma Prim2SF_zero : Prim2SF 0 = S754_zero false.
Proof. reflexivity. Qed.

(** A float above zero equals its absolute value and has a clear sign
    bit; a float below zero has its sign bit set. *)
Lemma positive_abs (a : float) : (0 <? a) = true -> abs a = a.
Proof.
  rewrite ltb_spec, Prim2SF_zero. intros H.
  apply Prim2SF_inj. rewrite abs_spec. unfold SFltb in H.
  destruct (Prim2SF a) as [s|s| |s m e]; simpl in *; try reflexivity;
    destruct s; try reflexivity; discriminate.
Qed.

Lemma positive_signbit (a : float) : (0 <? a) = true -> signbit a = false.
Proof.
  rewrite ltb_spec, Prim2SF_zero. unfold signbit, SFltb.
  destruct (Prim2SF a) as [s|s| |s m e]; simpl; try reflexivity;
    destruct s; try reflexivity; discriminate.
Qed.

Lemma negative_signbit (a : float) : (a <? 0) = true -> signbit a = true.
Proof.
  rewrite ltb_spec, Prim2SF_zero. unfold signbit, SFltb.
  destruct (Prim2SF a) as [s|s| |s m e]; simpl; try discriminate;
    destruct s; try reflexivity; discriminate.
Qed.

(** An absolute value is at least zero, its opposite at most zero. *)
Lemma abs_nonneg (a : float) : is_nan a = false -> (0 <=? abs a) = true.
Proof.
  rewrite not_nan_Prim2SF, leb_spec, abs_spec, Prim2SF_zero. unfold SFleb.
  destruct (Prim2SF a) as [s|s| |s m e]; simpl; congruence.
Qed.

Lemma opp_abs_nonpos (a : float) : is_nan a = false -> (- abs a <=? 0) = true.
Proof.
  rewrite not_nan_Prim2SF, leb_spec, opp_spec, abs_spec, Prim2SF_zero.
  unfold SFleb.
  destruct (Prim2SF a) as [s|s| |s m e]; simpl; congruence.
Qed.

Lemma opp_involutive (a : float) : - - a = a.
Proof.
  apply Prim2SF_inj. rewrite !opp_spec.
  destruct (Prim2SF a); simpl; now rewrite ?negb_involutive.
Qed.

(** [np.clip(c, 0, 1)] keeps a NaN and brings every number into the unit
    interval, leaving the numbers inside it as they are (a zero may change
    its sign). *)
Lemma np_clip_nan (c : float) : is_nan c = true -> np_clip c 0 1 = c.
Proof.
  intros N. unfold np_clip, np_max. rewrite N. unfold np_min. now rewrite N.
Qed.

Lemma np_clip_in_unit (c : float) :
  is_nan c = false -> in_unit (np_clip c 0 1) = true.
Proof.
  intros N. unfold in_unit, np_clip, np_max. rewrite N.
  destruct (0 <? c) eqn:P; unfold np_min.
  - rewrite N. destruct (c <? 1) eqn:Q.
    + now rewrite (ltb_leb _ _ P), (ltb_leb _ _ Q).
    + reflexivity.
  - reflexivity.
Qed.

Lemma np_clip_inside (c : float) :
  in_unit c = true -> (np_clip c 0 1 =? c) = true.
Proof.
  unfold in_unit. intros H. apply andb_prop in H. destruct H as [L U].
  assert (N : is_nan c = false).
  { apply not_nan_Prim2SF. intros E. rewrite leb_spec, E in U. discriminate. }
  unfold np_clip, np_max. rewrite N.
  destruct (0 <? c) eqn:P.
  - unfold np_min. rewrite N. destruct (c <? 1) eqn:Q.
    + unfold is_nan in N. now destruct (c =? c).
    + revert U Q. rewrite eqb_spec, leb_spec, ltb_spec.
      unfold SFeqb, SFleb, SFltb.
      rewrite (SFcompare_swap (Prim2SF c) (Prim2SF 1)).
      destruct (SFcompare (Prim2SF c) (Prim2SF 1)) as [[]|];
        simpl; congruence.
  - change (np_min 0 1) with 0.
    revert L P. rewrite eqb_spec, leb_spec, ltb_spec.
    unfold SFeqb, SFleb, SFltb.
    destruct (SFcompare (Prim2SF 0) (Prim2SF c)) as [[]|];
      simpl; congruence.
Qed.

End FloatFacts.

(** ** The classifier *)

Section Classifier.
Local Open Scope float_scope.
Variable self : GestureController.
Variable observation : HandObservation.

(** [_compute_pointer] writes [_smoothed_position] only. *)
Lemma compute_pointer_frame :
  let self' := fst (_compute_pointer self observation) in
  _config self' = _config self /\
  _last_pinched self' = _last_pinched self /\
  _last_event_time self' = _last_event_time self /\
  _drag_active self' = _drag_active self.
Proof.
  unfold _compute_pointer.
  destruct (landmark_at observation 8); simpl; auto.
Qed.

Lemma compute_pointer_none :
  landmark_at observation 8 = None ->
  _compute_pointer self observation = (self, None).
Proof. unfold _compute_pointer. now intros ->. Qed.

Lemma compute_pointer_some :
  landmark_at observation 8 <> None ->
  snd (_compute_pointer self observation) <> None.
Proof.
  unfold _compute_pointer.
  destruct (landmark_at observation 8); simpl; congruence.
Qed.

Lemma process_pointer :
  pointer (snd (process self observation))
  = snd (_compute_pointer self observation).
Proof.
  unfold process.
  destruct (_compute_pointer self observation) as [s p].
  destruct (scroll_check (_config s) _) as [g d].
  destruct (_ <? _); [destruct (_ && _)|]; reflexivity.
Qed.

Lemma process_config :
  _config (fst (process self observation)) = _config self.
Proof.
  pose proof compute_pointer_frame as F. unfold process.
  destruct (_compute_pointer self observation) as [s p]. simpl in F.
  destruct F as (Fc & _).
  destruct (scroll_check (_config s) _) as [g d].
  destruct (_ <? _); [destruct (_ && _)|]; simpl; exact Fc.
Qed.

Lemma process_scroll_delta :
  scroll_delta (snd (process self observation))
  = snd (scroll_check (_config self) (_vertical_delta observation 8 12)).
Proof.
  pose proof compute_pointer_frame as F. unfold process.
  destruct (_compute_pointer self observation) as [s p]. simpl in F.
  destruct F as (Fc & _). rewrite Fc.
  destruct (scroll_check (_config self) _) as [g d].
  destruct (_ <? _); [destruct (_ && _)|]; reflexivity.
Qed.

(** A call with a pinch: a click when the previous frame had no pinch and
    the debounce window has passed, a drag otherwise. *)
Lemma process_pinched :
  pinched self observation = true ->
  let click :=
    negb (_last_pinched self) && _is_debounced self (timestamp observation) in
  let self' := fst (process self observation) in
  let result := snd (process self observation) in
  is_click result = click /\
  is_drag result = negb click /\
  gesture result =
    match pointer result with
    | Some _ => if click then CLICK else DRAG
    | None => IDLE
    end /\
  _drag_active self' = true /\
  _last_pinched self' = true /\
  _last_event_time self' =
    (if click then timestamp observation else _last_event_time self).
Proof.
  unfold pinched. intros P.
  pose proof compute_pointer_frame as F. unfold process.
  destruct (_compute_pointer self observation) as [s p]. simpl in F.
  destruct F as (Fc & Fp & Ft & Fd).
  destruct (scroll_check (_config s) _) as [g d].
  unfold _is_debounced. rewrite Fc, Fp, Ft, P.
  destruct (negb (_last_pinched self) && _); simpl; auto 10.
Qed.

(** A call without a pinch: the scroll check decides, and the pinch state
    is cleared. *)
Lemma process_released :
  pinched self observation = false ->
  let self' := fst (process self observation) in
  let result := snd (process self observation) in
  is_click result = false /\
  is_drag result = false /\
  gesture result =
    match pointer result with
    | Some _ => if scrolling self observation then SCROLL else MOVE
    | None => IDLE
    end /\
  _drag_active self' = false /\
  _last_pinched self' = false /\
  _last_event_time self' = _last_event_time self.
Proof.
  unfold pinched, scrolling. intros P.
  pose proof compute_pointer_frame as F. unfold process.
  destruct (_compute_pointer self observation) as [s p]. simpl in F.
  destruct F as (Fc & Fp & Ft & Fd).
  unfold scroll_check. rewrite Fc, P.
  destruct (gt _ _); simpl; auto 10.
Qed.

End Classifier.

Lemma reset_config (self : GestureController) :
  _config (reset self) = _config self.
Proof. reflexivity. Qed.


(** The three unit tests of [tests/test_gestures.py] pass on the
    embedding. *)
Lemma test_pinch_triggers_click :
  let result :=
    snd (process (init TestGestures.click_config)
           (TestGestures._observation (0.5, 0.5) (0.48, 0.5) (0.5, 0.7) 0.1)) in
  gesture result = CLICK /\ is_click result = true.
Proof. vm_compute. split; reflexivity. Qed.

Lemma test_pointer_smoothing_applies :
  let first := process (init half_smoothing) smoothing_first in
  match pointer (snd (process (fst first) smoothing_second)) with
  | Some (px, py) =>
      (abs (px - 0.5) <=? 0.05) = true /\ (abs (py - 0.5) <=? 0.05) = true
  | None => False
  end.
Proof. vm_compute. split; reflexivity. Qed.

Lemma test_scroll_detects_vertical_delta :
  let result :=
    snd (process (init TestGestures.scroll_config)
           (TestGestures._observation (0.5, 0.4) (0, 0) (0.5, 0.7) 0.1)) in
  gesture result = SCROLL /\ (scroll_delta result <? 0) = true.
Proof. vm_compute. split; reflexivity. Qed.

(** Within the debounce window a pinch is a drag, whatever the previous
    frame was. *)
Lemma pinch_in_window (self : GestureController) (observation : HandObservation) :
  pinched self observation = true ->
  (timestamp observation - _last_event_time self
     <? float_of_int (debounce_ms (_config self)) / 1000)%float = true ->
  let result := snd (process self observation) in
  is_click result = false /\
  is_drag result = true /\
  (landmark_at observation 8 <> None -> gesture result = DRAG).
Proof.
  intros P W. destruct (process_pinched self observation P) as (C & D & G & _).
  assert (N : _is_debounced self (timestamp observation) = false).
  { unfold _is_debounced, gt. now apply ltb_asym. }
  rewrite N, andb_false_r in C, D, G. simpl in *.
  repeat split; trivial. intros L.
  apply (compute_pointer_some self) in L.
  rewrite <- process_pointer in L.
  destruct (pointer (snd (process self observation))); congruence.
Qed.

(** Calls that return no click leave the time of the last click and the
    configuration as they were. *)
Lemma calls_without_click (cs : list Call) : forall self : GestureController,
  Forall (fun result => is_click result = false) (snd (calls self cs)) ->
  _last_event_time (fst (calls self cs)) = _last_event_time self /\
  _config (fst (calls self cs)) = _config self.
Proof.
  induction cs as [|[observation|] cs IH]; intros self H; simpl in *.
  - auto.
  - pose proof (process_config self observation) as Hc.
    destruct (pinched self observation) eqn:P.
    + destruct (process_pinched self observation P) as (C & _ & _ & _ & _ & T).
      destruct (process self observation) as [s r]. simpl in *.
      specialize (IH s). destruct (calls s cs) as [s' rs]. simpl in *.
      inversion H as [|? ? Hr Hrs]; subst.
      rewrite C in Hr. rewrite Hr in T.
      destruct (IH Hrs) as [IH1 IH2]. split; congruence.
    + destruct (process_released self observation P) as (_ & _ & _ & _ & _ & T).
      destruct (process self observation) as [s r]. simpl in *.
      specialize (IH s). destruct (calls s cs) as [s' rs]. simpl in *.
      inversion H as [|? ? Hr Hrs]; subst.
      destruct (IH Hrs) as [IH1 IH2]. split; congruence.
  - destruct (IH (reset self) H) as [IH1 IH2]. split; assumption.
Qed.

(** C2 (as the code has it): after a [process] call [_drag_active] is true
    exactly when the pinch distance of that call is below [click_threshold];
    so the call clears it exactly when there is no pinch, and a call that
    returns [is_click = true] leaves it set. *)
Theorem drag_active_follows_pinch
    (self : GestureController) (observation : HandObservation) :
  let self' := fst (process self observation) in
  let result := snd (process self observation) in
  _drag_active self' = pinched self observation /\
  (is_click result = true -> _drag_active self' = true).
Proof.
  destruct (pinched self observation) eqn:P.
  - destruct (process_pinched self observation P) as (_ & _ & _ & D & _).
    simpl. auto.
  - destruct (process_released self observation P) as (C & _ & _ & D & _).
    simpl. split; [assumption|]. congruence.
Qed.

Lemma drag_active_follows_pinch_witness :
  _drag_active (fst (process (init default_gesture) (pinch_and_scroll 0.2)))
  = true.
Proof.
  apply (proj2 (drag_active_follows_pinch (init default_gesture)
                  (pinch_and_scroll 0.2))).
  vm_compute; reflexivity.
Defined.

(** C2, the counterexample: on a fresh controller with the default
    configuration the pinch at time 0.2 returns [is_click = true], and
    [_drag_active] is true after the call. *)
Lemma click_leaves_drag_active :
  is_click (snd (process (init default_gesture) (pinch_and_scroll 0.2))) = true /\
  _drag_active (fst (process (init default_gesture) (pinch_and_scroll 0.2)))
    = true.
Proof. vm_compute. split; reflexivity. Qed.

(** C3: let a [process] call be a transition from released to pinched that
    returns a click, and let a later call, with no click in between, again
    be a transition from released to pinched, its timestamp less than
    [debounce_ms / 1000] after that of the click.  Then the later call
    returns no click: it returns [is_drag = true], and the gesture [DRAG]
    (the observation carrying the index fingertip). *)
Theorem debounce_second_pinch_is_drag
    (self : GestureController) (first : HandObservation)
    (between : list Call) (second : HandObservation) :
  let self1 := fst (process self first) in
  let result1 := snd (process self first) in
  let self2 := fst (calls self1 between) in
  let result2 := snd (process self2 second) in
  _last_pinched self = false ->
  pinched self first = true ->
  is_click result1 = true ->
  Forall (fun result => is_click result = false) (snd (calls self1 between)) ->
  _last_pinched self2 = false ->
  pinched self2 second = true ->
  landmark_at second 8 <> None ->
  (timestamp second - timestamp first
     <? float_of_int (debounce_ms (_config self)) / 1000)%float = true ->
  (is_click result1 && is_click result2 = false) /\
  is_click result2 = false /\
  is_drag result2 = true /\
  gesture result2 = DRAG.
Proof.
  intros self1 result1 self2 result2 L1 P1 C1 B L2 P2 I W.
  destruct (process_pinched self first P1) as (C & _ & _ & _ & _ & T).
  fold result1 in C. fold self1 in T. rewrite <- C, C1 in T.
  destruct (calls_without_click between self1 B) as [Bt Bc].
  fold self2 in Bt, Bc.
  pose proof (process_config self first) as Pc. fold self1 in Pc.
  destruct (pinch_in_window self2 second P2) as (R1 & R2 & R3).
  { rewrite Bt, T, Bc, Pc. exact W. }
  fold result2 in R1, R2, R3. rewrite R1, andb_false_r. auto.
Qed.

Lemma debounce_second_pinch_is_drag_witness :
  is_click (snd (process (init default_gesture) (pinch 1))) = true /\
  (let released :=
     fst (calls (fst (process (init default_gesture) (pinch 1)))
                [Process (open_hand 1.05); Reset]) in
   is_click (snd (process released (pinch 1.1))) = false /\
   is_drag (snd (process released (pinch 1.1))) = true /\
   gesture (snd (process released (pinch 1.1))) = DRAG).
Proof.
  split; [vm_compute; reflexivity|].
  apply (debounce_second_pinch_is_drag (init default_gesture) (pinch 1)
           [Process (open_hand 1.05); Reset] (pinch 1.1)).
  - reflexivity.
  - vm_compute; reflexivity.
  - vm_compute; reflexivity.
  - vm_compute. repeat constructor.
  - vm_compute; reflexivity.
  - vm_compute; reflexivity.
  - vm_compute; discriminate.
  - vm_compute; reflexivity.
Defined.

(** C4: when the scroll condition and the pinch condition both hold and
    the pointer is computable, the gesture returned is [CLICK] or [DRAG] and
    not [SCROLL]; and a fresh controller with the default thresholds, past
    the debounce window, returns [CLICK] with [is_click = true] for index
    (0.5, 0.5), thumb (0.48, 0.5) and middle (0.5, 0.7). *)
Theorem pinch_overrides_scroll :
  (forall (self : GestureController) (observation : HandObservation),
     scrolling self observation = true ->
     pinched self observation = true ->
     landmark_at observation 8 <> None ->
     let result := snd (process self observation) in
     (gesture result = CLICK \/ gesture result = DRAG) /\
     gesture result <> SCROLL) /\
  (forall now : float,
     _is_debounced (init default_gesture) now = true ->
     let result := snd (process (init default_gesture) (pinch_and_scroll now)) in
     scrolling (init default_gesture) (pinch_and_scroll now) = true /\
     pinched (init default_gesture) (pinch_and_scroll now) = true /\
     gesture result = CLICK /\
     is_click result = true).
Proof.
  split.
  - intros self observation _ P L result.
    destruct (process_pinched self observation P) as (_ & _ & G & _).
    apply (compute_pointer_some self) in L.
    rewrite <- process_pointer in L. fold result in G, L.
    destruct (pointer result); [|congruence].
    rewrite G. destruct (_ && _); split; auto; discriminate.
  - intros now D result.
    assert (P : pinched (init default_gesture) (pinch_and_scroll now) = true)
      by (vm_compute; reflexivity).
    destruct (process_pinched _ _ P) as (C & _ & G & _).
    fold result in C, G.
    assert (K : negb (_last_pinched (init default_gesture))
                && _is_debounced (init default_gesture)
                     (timestamp (pinch_and_scroll now)) = true) by exact D.
    rewrite K in C, G. unfold result in G. rewrite process_pointer in G.
    repeat split; trivial.
Qed.

Lemma pinch_overrides_scroll_witness :
  gesture (snd (process (init default_gesture) (pinch_and_scroll 0.2))) <> SCROLL /\
  is_click (snd (process (init default_gesture) (pinch_and_scroll 0.2))) = true.
Proof.
  split.
  - apply (proj1 pinch_overrides_scroll (init default_gesture)
             (pinch_and_scroll 0.2)).
    + vm_compute; reflexivity.
    + vm_compute; reflexivity.
    + vm_compute; discriminate.
  - apply (proj2 pinch_overrides_scroll 0.2). vm_compute; reflexivity.
Defined.

(** An observation with fewer than nine landmarks has no landmark 8;
    where [process] returns for it (each [IndexError] is caught inside the
    helpers), it returns the gesture [IDLE] and no pointer. *)
Lemma missing_fingertip_is_idle
    (self : GestureController) (observation : HandObservation) :
  (List.length (landmarks observation) < 9)%nat ->
  let result := snd (process self observation) in
  gesture result = IDLE /\ pointer result = None.
Proof.
  intros H result.
  assert (L : landmark_at observation 8 = None).
  { apply nth_error_None. lia. }
  assert (Q : pointer result = None).
  { unfold result. now rewrite process_pointer, compute_pointer_none. }
  split; [|exact Q].
  destruct (pinched self observation) eqn:P.
  - destruct (process_pinched self observation P) as (_ & _ & G & _).
    fold result in G. now rewrite Q in G.
  - destruct (process_released self observation P) as (_ & _ & G & _).
    fold result in G. now rewrite Q in G.
Qed.

Lemma missing_fingertip_is_idle_witness :
  gesture (snd (process (init default_gesture) (cut_short 0.1))) = IDLE /\
  pointer (snd (process (init default_gesture) (cut_short 0.1))) = None.
Proof.
  apply (missing_fingertip_is_idle (init default_gesture) (cut_short 0.1)).
  simpl. lia.
Defined.

(** C6: with landmark 8 present, the first call (no smoothed position yet)
    returns the raw position of landmark 8, clipped to [0, 1] on each axis;
    a later call returns [alpha * raw + (1 - alpha) * smoothed_prev], clipped
    likewise, for [alpha] the configured value clipped to [0, 1] and
    [smoothed_prev] the position kept from the call before; the value kept
    is the one before clipping, and every coordinate returned that is a
    number lies in [0, 1].  With [alpha = 0.5], index positions (0.1, 0.1)
    and then (0.9, 0.9) give a second pointer within 0.05 of (0.5, 0.5). *)
Theorem pointer_is_clipped_smoothing :
  (forall (self : GestureController) (observation : HandObservation)
          (fingertip : HandLandmark),
     landmark_at observation 8 = Some fingertip ->
     let alpha := np_clip (smoothing_alpha (_config self)) 0 1 in
     let smoothed :=
       match _smoothed_position self with
       | None => (x fingertip, y fingertip)
       | Some (prev_x, prev_y) =>
           (alpha * x fingertip + (1 - alpha) * prev_x,
            alpha * y fingertip + (1 - alpha) * prev_y)
       end in
     let px := np_clip (fst smoothed) 0 1 in
     let py := np_clip (snd smoothed) 0 1 in
     pointer (snd (process self observation)) = Some (px, py) /\
     _smoothed_position (fst (process self observation)) = Some smoothed /\
     (is_nan px = false -> in_unit px = true) /\
     (is_nan py = false -> in_unit py = true)) /\
  (forall (config : GestureConfig) (observation : HandObservation)
          (fingertip : HandLandmark),
     landmark_at observation 8 = Some fingertip ->
     pointer (snd (process (init config) observation))
     = Some (np_clip (x fingertip) 0 1, np_clip (y fingertip) 0 1)) /\
  (let first := process (init half_smoothing) smoothing_first in
   let second := process (fst first) smoothing_second in
   exists px py : float,
     pointer (snd second) = Some (px, py) /\
     (abs (px - 0.5) <=? 0.05) = true /\
     (abs (py - 0.5) <=? 0.05) = true).
Proof.
  split; [|split].
  - intros self observation fingertip L alpha smoothed px py.
    assert (E : _compute_pointer self observation
                = (set_smoothed_position self (Some smoothed), Some (px, py))).
    { unfold _compute_pointer. rewrite L. unfold px, py, smoothed, alpha.
      now destruct (_smoothed_position self) as [[prev_x prev_y]|]. }
    repeat split.
    + now rewrite process_pointer, E.
    + unfold process. rewrite E.
      destruct (scroll_check _ _) as [g d].
      destruct (_ <? _); [destruct (_ && _)|]; reflexivity.
    + intros N. unfold px in *.
      destruct (is_nan (fst smoothed)) eqn:M.
      * now rewrite (np_clip_nan _ M) in N; congruence.
      * now apply np_clip_in_unit.
    + intros N. unfold py in *.
      destruct (is_nan (snd smoothed)) eqn:M.
      * now rewrite (np_clip_nan _ M) in N; congruence.
      * now apply np_clip_in_unit.
  - intros config observation fingertip L.
    rewrite process_pointer. unfold _compute_pointer. now rewrite L.
  - vm_compute. eexists. eexists. repeat split.
Qed.

Lemma pointer_is_clipped_smoothing_witness :
  pointer (snd (process (init half_smoothing) smoothing_first))
  = Some (np_clip 0.1 0 1, np_clip 0.1 0 1).
Proof.
  apply (proj1 pointer_is_clipped_smoothing (init half_smoothing)
           smoothing_first {| x := 0.1; y := 0.1; z := 0; visibility := 1 |}).
  reflexivity.
Defined.

(** The scroll delta of a frame in which the middle fingertip is below
    ([0 < middle_delta]) or above ([middle_delta < 0]) the index fingertip
    by more than the threshold. *)
Section ScrollDelta.
Variable config : GestureConfig.
Variable middle_delta : float.
Hypothesis over : gt (abs middle_delta) (scroll_threshold config) = true.

Local Abbreviation capped := (py_min (abs middle_delta) 0.25).

Lemma scroll_check_over :
  scroll_check config middle_delta = (SCROLL, - copysign capped middle_delta).
Proof. unfold scroll_check. now rewrite over. Qed.

Lemma delta_is_number : is_nan (abs middle_delta) = false.
Proof. unfold gt in over. now apply ltb_not_nan in over. Qed.

Lemma capped_is_number : is_nan capped = false.
Proof.
  unfold capped, py_min.
  destruct (0.25 <? abs middle_delta); [reflexivity|apply delta_is_number].
Qed.

Lemma capped_abs : abs capped = capped.
Proof.
  unfold capped, py_min.
  destruct (0.25 <? abs middle_delta); [reflexivity|apply abs_idem].
Qed.

Lemma capped_le : (capped <=? 0.25) = true.
Proof.
  unfold capped, py_min. destruct (0.25 <? abs middle_delta) eqn:E.
  - reflexivity.
  - apply nlt_leb; [reflexivity|apply delta_is_number|exact E].
Qed.

Lemma scroll_delta_magnitude :
  (abs (- copysign capped middle_delta) <=? 0.25) = true.
Proof.
  rewrite abs_opp. unfold copysign.
  destruct (signbit middle_delta);
    rewrite ?abs_opp, abs_idem, capped_abs; apply capped_le.
Qed.

Lemma scroll_delta_down :
  (0 <? middle_delta) = true ->
  - copysign capped middle_delta = - py_min middle_delta 0.25 /\
  (- copysign capped middle_delta <=? 0) = true.
Proof.
  intros P. unfold copysign. rewrite (positive_signbit _ P), capped_abs.
  split.
  - unfold capped. now rewrite (positive_abs _ P).
  - rewrite <- capped_abs. apply opp_abs_nonpos, capped_is_number.
Qed.

Lemma scroll_delta_up :
  (middle_delta <? 0) = true ->
  - copysign capped middle_delta = py_min (abs middle_delta) 0.25 /\
  (0 <=? - copysign capped middle_delta) = true.
Proof.
  intros P. unfold copysign.
  rewrite (negative_signbit _ P), capped_abs, opp_involutive.
  split.
  - reflexivity.
  - rewrite <- capped_abs. apply abs_nonneg, capped_is_number.
Qed.

Lemma scroll_delta_capped :
  (0.25 <? middle_delta) = true ->
  - copysign capped middle_delta = -0.25.
Proof.
  intros P.
  assert (Z : (0 <? middle_delta) = true).
  { revert P. rewrite !ltb_spec. unfold SFltb.
    change (Prim2SF 0) with (S754_zero false).
    change (Prim2SF 0.25) with (S754_finite false 4503599627370496 (-54)).
    destruct (Prim2SF middle_delta) as [s|s| |s m e]; simpl;
      try destruct s; congruence. }
  destruct (scroll_delta_down Z) as [E _]. rewrite E.
  unfold py_min. now rewrite P.
Qed.

End ScrollDelta.

(** C7: let [middle_delta] be the [y] of landmark 12 minus the [y] of
    landmark 8, let its absolute value exceed [scroll_threshold], and let
    there be no pinch in the frame.  Then [process] returns the gesture
    [SCROLL] and the scroll delta [-copysign(min(|middle_delta|, 0.25),
    middle_delta)]: the capped magnitude negated for a positive
    [middle_delta], so at most zero, the capped magnitude itself for a
    negative one, so at least zero, never above 0.25 in absolute value, and
    -0.25 once [middle_delta] exceeds 0.25, as for [middle_delta = 0.3]. *)
Theorem scroll_delta_sign_and_cap
    (self : GestureController) (observation : HandObservation)
    (index_tip middle_tip : HandLandmark) :
  landmark_at observation 8 = Some index_tip ->
  landmark_at observation 12 = Some middle_tip ->
  let middle_delta := y middle_tip - y index_tip in
  gt (abs middle_delta) (scroll_threshold (_config self)) = true ->
  pinched self observation = false ->
  let result := snd (process self observation) in
  gesture result = SCROLL /\
  scroll_delta result
    = - copysign (py_min (abs middle_delta) 0.25) middle_delta /\
  ((0 <? middle_delta) = true ->
     scroll_delta result = - py_min middle_delta 0.25 /\
     (scroll_delta result <=? 0) = true) /\
  ((middle_delta <? 0) = true ->
     scroll_delta result = py_min (abs middle_delta) 0.25 /\
     (0 <=? scroll_delta result) = true) /\
  (abs (scroll_delta result) <=? 0.25) = true /\
  ((0.25 <? middle_delta) = true -> scroll_delta result = -0.25) /\
  (middle_delta = 0.3 -> scroll_delta result = -0.25).
Proof.
  intros L8 L12 middle_delta S P result.
  assert (V : _vertical_delta observation 8 12 = middle_delta).
  { unfold _vertical_delta. now rewrite L8, L12. }
  assert (D : scroll_delta result
              = - copysign (py_min (abs middle_delta) 0.25) middle_delta).
  { unfold result.
    now rewrite process_scroll_delta, V, (scroll_check_over _ _ S). }
  destruct (process_released self observation P) as (_ & _ & G & _).
  fold result in G. unfold scrolling in G. rewrite V, S in G.
  assert (Q : pointer result <> None).
  { unfold result. rewrite process_pointer.
    apply compute_pointer_some. congruence. }
  destruct (pointer result); [|congruence].
  rewrite D. repeat split; trivial.
  - now apply (scroll_delta_down _ _ S).
  - now apply (scroll_delta_down _ _ S).
  - now apply (scroll_delta_up _ _ S).
  - now apply (scroll_delta_up _ _ S).
  - apply (scroll_delta_magnitude _ _ S).
  - apply (scroll_delta_capped _ _ S).
  - intros E. apply (scroll_delta_capped _ _ S). now rewrite E.
Qed.

Lemma scroll_delta_sign_and_cap_witness :
  gesture (snd (process (init default_gesture) scroll_down)) = SCROLL /\
  scroll_delta (snd (process (init default_gesture) scroll_down)) = -0.25.
Proof.
  assert (H := scroll_delta_sign_and_cap (init default_gesture) scroll_down
                 {| x := 0.5; y := 0; z := 0; visibility := 1 |}
                 {| x := 0.5; y := 0.3; z := 0; visibility := 1 |}
                 eq_refl eq_refl eq_refl eq_refl).
  split.
  - apply H.
  - apply H. reflexivity.
Defined.



(** ** Conversions to integers *)

(** [trunc_pos m e] is the integer part of [m * 2^e], and [round_pos m e]
    is an integer nearest to it. *)
Lemma trunc_pos_bounds (m p : positive) :
  let n := trunc_pos m (Z.neg p) in
  (n * 2 ^ Z.pos p <= Z.pos m < (n + 1) * 2 ^ Z.pos p)%Z.
Proof.
  cbv zeta. unfold trunc_pos.
  assert (D : (0 < 2 ^ Z.pos p)%Z) by (apply Z.pow_pos_nonneg; lia).
  revert D. generalize (2 ^ Z.pos p)%Z (Z.pos m). intros d n D.
  pose proof (Z.div_mod n d ltac:(lia)) as E.
  pose proof (Z.mod_pos_bound n d D) as B.
  nia.
Qed.

Lemma round_pos_bounds (m p : positive) :
  let n := round_pos m (Z.neg p) in
  (2 * Z.abs (Z.pos m - n * 2 ^ Z.pos p) <= 2 ^ Z.pos p)%Z.
Proof.
  cbv zeta. unfold round_pos.
  assert (D : (0 < 2 ^ Z.pos p)%Z) by (apply Z.pow_pos_nonneg; lia).
  revert D. generalize (2 ^ Z.pos p)%Z (Z.pos m). intros d n D.
  pose proof (Z.div_mod n d ltac:(lia)) as E.
  pose proof (Z.mod_pos_bound n d D) as B.
  assert (Q0 : (n - n / d * d = n mod d)%Z) by nia.
  assert (Q1 : (n - (n / d + 1) * d = n mod d - d)%Z) by nia.
  revert B Q0 Q1. clear E. generalize (n mod d)%Z. intros r B Q0 Q1.
  destruct (2 * r ?= d)%Z eqn:C.
  - apply Z.compare_eq in C.
    destruct (Z.even (n / d)); rewrite ?Q0, ?Q1; clear Q0 Q1; lia.
  - change (2 * r < d)%Z in C. rewrite Q0. clear Q0 Q1. lia.
  - apply Z.compare_gt_iff in C. rewrite Q1. clear Q0 Q1. lia.
Qed.

(** ** The engine *)

Section EngineFacts.
Variables screen_w screen_h : Z.

(** In an iteration without a hand the engine resets the classifier and
    calls neither the pointer nor [process]. *)
Lemma tick_without_hand (self : Engine.VirtualMouseEngine) (last_seen : float)
    (t : Engine.Tick) :
  Engine.stop_is_set t = false ->
  Engine.detected t = None ->
  exists (self' : Engine.VirtualMouseEngine) (effects : list Engine.Effect)
         (flow : Engine.Flow),
    Engine.tick screen_w screen_h self last_seen t
      = (self', last_seen, effects, flow) /\
    Engine._gestures self' = reset (Engine._gestures self) /\
    Engine._dragging self' = Engine._dragging self /\
    In Engine.GesturesReset effects /\
    filter Engine.is_pointer effects = [] /\
    flow <> Engine.Raise ValueError /\ flow <> Engine.Raise OverflowError.
Proof.
  intros S D. unfold Engine.tick, Engine.debug_view. rewrite S, D. simpl.
  destruct (show_debug _), (Engine.imshow_ok t), (Engine.exit_key t);
    simpl; try destruct (gt _ _ && gt _ _);
    do 3 eexists; (split; [reflexivity|]); simpl;
    repeat split; auto; discriminate.
Qed.

(** The iteration that finds the hand gone for too long ends the loop. *)
Lemma tick_idle_timeout (self : Engine.VirtualMouseEngine) (last_seen : float)
    (t : Engine.Tick) :
  Engine.stop_is_set t = false ->
  Engine.detected t = None ->
  (show_debug (app (Engine._config self)) = true -> Engine.exit_key t = false) ->
  gt (max_inactive_seconds (app (Engine._config self))) 0 = true ->
  gt (Engine.loop_time t - last_seen)
     (max_inactive_seconds (app (Engine._config self))) = true ->
  exists (self' : Engine.VirtualMouseEngine) (effects : list Engine.Effect),
    Engine.tick screen_w screen_h self last_seen t
      = (self', last_seen, effects, Engine.Break "idle_timeout") /\
    Engine._dragging self' = Engine._dragging self /\
    Engine.releases effects = 0%nat.
Proof.
  intros S D X M I. unfold Engine.tick, Engine.debug_view. rewrite S, D. simpl.
  destruct (show_debug _).
  - rewrite (X eq_refl).
    destruct (Engine.imshow_ok t); simpl; rewrite M, I; simpl;
      do 2 eexists; repeat split.
  - simpl. rewrite M, I. simpl. do 2 eexists; repeat split.
Qed.

(** Iterations that all continue are a prefix of the loop. *)
Lemma loop_after_advance (before : list Engine.Tick) :
  forall (self0 : Engine.VirtualMouseEngine) (start : float)
         (self : Engine.VirtualMouseEngine) (last_seen : float)
         (shown : list Engine.Effect) (ticks : list Engine.Tick),
    Engine.advance screen_w screen_h self0 start before
      = Some (self, last_seen, shown) ->
    Engine.loop screen_w screen_h self0 start (before ++ ticks)
    = let '(self', later, outcome) :=
        Engine.loop screen_w screen_h self last_seen ticks in
      (self', shown ++ later, outcome).
Proof.
  induction before as [|t before IH]; intros self0 start self last_seen shown ticks A.
  - simpl in A. injection A as -> -> <-. simpl.
    now destruct (Engine.loop _ _ _ _ _) as [[? ?] ?].
  - simpl in *.
    destruct (Engine.tick screen_w screen_h self0 start t) as [[[s l] e] f].
    destruct f; try discriminate.
    destruct (Engine.advance screen_w screen_h s l before)
      as [[[s' l'] e']|] eqn:A'; try discriminate.
    injection A as <- <- <-.
    rewrite (IH _ _ _ _ _ ticks A').
    destruct (Engine.loop _ _ s' l' ticks) as [[? ?] ?].
    now rewrite app_assoc.
Qed.

End EngineFacts.

(** What the branch of [run] for a frame without a hand does: it
    calls [reset] on the classifier, makes no call to the pointer and leaves
    [_dragging] as it was; only the [finally] block releases a button that
    is held, when the run ends. *)
Lemma no_hand_tick_resets_and_keeps_button
    (screen_w screen_h : Z) (self : Engine.VirtualMouseEngine)
    (last_seen : float) (t : Engine.Tick) :
  Engine.stop_is_set t = false ->
  Engine.detected t = None ->
  exists (self' : Engine.VirtualMouseEngine) (effects : list Engine.Effect)
         (flow : Engine.Flow),
    Engine.tick screen_w screen_h self last_seen t
      = (self', last_seen, effects, flow) /\
    Engine._gestures self' = reset (Engine._gestures self) /\
    In Engine.GesturesReset effects /\
    filter Engine.is_pointer effects = [] /\
    Engine._dragging self' = Engine._dragging self /\
    Engine._dragging (fst (Engine.finally_ self')) = false /\
    Engine.releases (snd (Engine.finally_ self'))
      = (if Engine._dragging self then 1 else 0)%nat.
Proof.
  intros S D.
  destruct (tick_without_hand screen_w screen_h self last_seen t S D)
    as (self' & effects & flow & E & G & K & R & P & _).
  exists self', effects, flow. repeat split; trivial.
  - unfold Engine.finally_. now destruct (Engine._dragging self') eqn:X.
  - unfold Engine.finally_. rewrite <- K. now destruct (Engine._dragging self').
Qed.

(** After a click and a drag the button is held; the next iteration,
    without a hand, releases nothing, keeps [_dragging] true and continues
    the loop. *)
Lemma lost_hand_keeps_button_pressed :
  exists (self : Engine.VirtualMouseEngine) (last_seen : float)
         (shown : list Engine.Effect),
    Engine.advance 1366 768 (Engine.init Config.default) 0
      [seen (pinch 1); seen (pinch 1.1)] = Some (self, last_seen, shown) /\
    Engine._dragging self = true /\
    exists (self' : Engine.VirtualMouseEngine) (effects : list Engine.Effect),
      Engine.tick 1366 768 self last_seen (lost 1.2)
        = (self', last_seen, effects, Engine.Continue) /\
      Engine.releases effects = 0%nat /\
      Engine._dragging self' = true.
Proof.
  vm_compute. do 3 eexists. split; [reflexivity|]. split; [reflexivity|].
  do 2 eexists. repeat split.
Qed.

(** C8 (as the code has it): for a gesture with a pointer [(px, py)] the
    engine first moves the pointer to the pixel [x = int(px * W)],
    [y = int(py * H)], the products truncated towards zero; it hands a
    scroll to the sink exactly for a [SCROLL] gesture with a non-zero scroll
    delta, as that delta times 120, after the calls for the button. *)
Theorem apply_gesture_moves_to_truncated_pixel
    (self : Engine.VirtualMouseEngine) (event : GestureResult)
    (screen_w screen_h : Z) (px py : float) (x y : Z) :
  pointer event = Some (px, py) ->
  py_int (px * float_of_int screen_w) = inr x ->
  py_int (py * float_of_int screen_h) = inr y ->
  exists (self' : Engine.VirtualMouseEngine) (buttons : list Engine.PointerCall),
    Engine._apply_gesture self event screen_w screen_h
      = inr (self',
             Engine.Move x y :: buttons ++
             (if GestureType_eqb (gesture event) SCROLL
                 && truthy (scroll_delta event)
              then [Engine.Scroll (scroll_delta event * 120)]
              else [])) /\
    Forall (fun call => call = Engine.Click \/ call = Engine.Press
                        \/ call = Engine.Release) buttons.
Proof.
  intros P X Y. unfold Engine._apply_gesture, Engine.move_call.
  rewrite P, X, Y.
  destruct (GestureType_eqb (gesture event) CLICK && is_click event);
    [|destruct (GestureType_eqb (gesture event) DRAG)];
    destruct (Engine._dragging self); cbn [negb].
  - exists (Engine.set_dragging self false), [Engine.Click; Engine.Release].
    split; [reflexivity|]. repeat (apply Forall_cons; [tauto|]). constructor.
  - exists self, [Engine.Click].
    split; [reflexivity|]. repeat (apply Forall_cons; [tauto|]). constructor.
  - exists self, []. split; [reflexivity|constructor].
  - exists (Engine.set_dragging self true), [Engine.Press].
    split; [reflexivity|]. repeat (apply Forall_cons; [tauto|]). constructor.
  - exists (Engine.set_dragging self false), [Engine.Release].
    split; [reflexivity|]. repeat (apply Forall_cons; [tauto|]). constructor.
  - exists self, []. split; [reflexivity|constructor].
Qed.

Lemma apply_gesture_moves_to_truncated_pixel_witness :
  exists (self' : Engine.VirtualMouseEngine) (buttons : list Engine.PointerCall),
    Engine._apply_gesture (Engine.init Config.default)
      (snd (process (init default_gesture) scroll_down)) 1366 768
    = inr (self', Engine.Move 683 0 :: buttons ++ [Engine.Scroll (-30)]).
Proof.
  destruct (apply_gesture_moves_to_truncated_pixel
              (Engine.init Config.default)
              (snd (process (init default_gesture) scroll_down))
              1366 768 0.5 0 683 0 eq_refl eq_refl eq_refl)
    as (self' & buttons & E & _).
  exists self', buttons. exact E.
Defined.

(** C8, the counterexample: for the pointer (0.6, 0.6) on a screen of
    1366 by 768 pixels the engine moves to (819, 460), while rounding the
    products 819.6 and 460.8 gives (820, 461). *)
Lemma move_truncates_instead_of_rounding :
  Engine._apply_gesture (Engine.init Config.default)
    (snd (process (init default_gesture) (open_hand 1))) 1366 768
  = inr (Engine.init Config.default, [Engine.Move 819 460]) /\
  pointer (snd (process (init default_gesture) (open_hand 1)))
  = Some (0.6, 0.6) /\
  py_round (0.6 * float_of_int 1366) = inr 820%Z /\
  py_round (0.6 * float_of_int 768) = inr 461%Z.
Proof. vm_compute. repeat split. Qed.

(** C9: let the iterations [before] all continue the loop and bring the
    engine to [self] with the hand last seen at [last_seen]; let the next
    iteration come with no stop requested, no observation and the exit key
    not pressed, more than [max_inactive_seconds > 0] after [last_seen].
    Then [run] returns with the reason ["idle_timeout"], whatever frames
    would follow; from that iteration on the button is released once if it
    was held and not at all otherwise, and it is not held when [run]
    returns. *)
Theorem idle_timeout_ends_run
    (self0 : Engine.VirtualMouseEngine) (screen : Z * Z) (start : float)
    (before : list Engine.Tick) (t : Engine.Tick) (after : list Engine.Tick)
    (self : Engine.VirtualMouseEngine) (last_seen : float)
    (shown : list Engine.Effect) :
  Engine.advance (fst screen) (snd screen) self0 start before
    = Some (self, last_seen, shown) ->
  Engine.stop_is_set t = false ->
  Engine.detected t = None ->
  (show_debug (app (Engine._config self)) = true -> Engine.exit_key t = false) ->
  gt (max_inactive_seconds (app (Engine._config self))) 0 = true ->
  gt (Engine.loop_time t - last_seen)
     (max_inactive_seconds (app (Engine._config self))) = true ->
  exists (final : Engine.VirtualMouseEngine) (last : list Engine.Effect),
    Engine.run self0 screen start (before ++ t :: after)
      = (final, Engine.CameraStart :: shown ++ last,
         inr {| Engine.reason := "idle_timeout" |}) /\
    Engine.releases last = (if Engine._dragging self then 1 else 0)%nat /\
    Engine._dragging final = false.
Proof.
  intros A S D X M I.
  destruct (tick_idle_timeout (fst screen) (snd screen) self last_seen t
              S D X M I) as (self' & effects & E & K & R).
  unfold Engine.run, Engine.run_from.
  rewrite (loop_after_advance _ _ _ _ _ _ _ _ (t :: after) A).
  simpl. rewrite E. unfold Engine.finally_. rewrite K.
  destruct (Engine._dragging self) eqn:G.
  - exists (Engine.set_dragging self' false),
           (effects ++ [Engine.CameraStop; Engine.Pointer Engine.Release]).
    rewrite app_assoc. repeat split.
    unfold Engine.releases in *. rewrite filter_app, length_app, R.
    reflexivity.
  - exists self', (effects ++ [Engine.CameraStop]).
    rewrite app_assoc. repeat split; [|congruence].
    unfold Engine.releases in *. rewrite filter_app, length_app, R.
    reflexivity.
Qed.

Lemma idle_timeout_ends_run_witness :
  exists (final : Engine.VirtualMouseEngine) (shown last : list Engine.Effect),
    Engine.run (Engine.init Config.default) (1366, 768)%Z 0
      ([seen (pinch 1); seen (pinch 1.1)] ++ lost 11.2 :: [lost 12])
      = (final, Engine.CameraStart :: shown ++ last,
         inr {| Engine.reason := "idle_timeout" |}) /\
    Engine.releases last = 1%nat /\
    Engine._dragging final = false.
Proof.
  destruct (Engine.advance 1366 768 (Engine.init Config.default) 0
              [seen (pinch 1); seen (pinch 1.1)])
    as [[[self last_seen] shown]|] eqn:A; [|vm_compute in A; discriminate].
  assert (G : Engine._dragging self = true /\ last_seen = 1.1
              /\ Engine._config self = Config.default).
  { vm_compute in A. injection A as <- <- _. repeat split. }
  destruct G as (G & -> & C).
  destruct (idle_timeout_ends_run (Engine.init Config.default) (1366, 768)%Z 0
              [seen (pinch 1); seen (pinch 1.1)] (lost 11.2) [lost 12]
              self 1.1 shown A eq_refl eq_refl)
    as (final & last & E & R & F).
  - reflexivity.
  - rewrite C. reflexivity.
  - rewrite C. reflexivity.
  - exists final, shown, last. rewrite G in R. repeat split; assumption.
Defined.

(** * Further properties of the code *)

Import Trace.

(** ** More facts on binary64 floats *)

Lemma sub_zero_r (a : float) : a - 0 = a.
Proof.
  apply Prim2SF_inj. rewrite sub_spec. change (Prim2SF 0) with (S754_zero false).
  destruct (Prim2SF a) as [[]|[]| |s m e]; reflexivity.
Qed.

Lemma leb_not_gt (a b : float) : (a <=? b) = true -> gt a b = false.
Proof.
  unfold gt. rewrite leb_spec, ltb_spec. unfold SFleb, SFltb.
  rewrite (SFcompare_swap (Prim2SF a) (Prim2SF b)).
  destruct (SFcompare (Prim2SF a) (Prim2SF b)) as [[]|]; simpl; congruence.
Qed.

Lemma mul_nan_r (a b : float) : is_nan b = true -> is_nan (a * b) = true.
Proof.
  rewrite !is_nan_Prim2SF, mul_spec. intros ->.
  now destruct (Prim2SF a).
Qed.

Lemma mul_nan_l (a b : float) : is_nan a = true -> is_nan (a * b) = true.
Proof.
  rewrite !is_nan_Prim2SF, mul_spec. now intros ->.
Qed.

Lemma add_nan_r (a b : float) : is_nan b = true -> is_nan (a + b) = true.
Proof.
  rewrite !is_nan_Prim2SF, add_spec. intros ->.
  now destruct (Prim2SF a).
Qed.

Lemma py_int_nan (a : float) : is_nan a = true -> py_int a = inl ValueError.
Proof. rewrite is_nan_Prim2SF. unfold py_int. now intros ->. Qed.

(** ** The classifier over sequences of calls *)

Lemma calls_app (cs1 cs2 : list Call) : forall self : GestureController,
  calls self (cs1 ++ cs2)
  = (fst (calls (fst (calls self cs1)) cs2),
     snd (calls self cs1) ++ snd (calls (fst (calls self cs1)) cs2)).
Proof.
  induction cs1 as [|[observation|] cs1 IH]; intros self; simpl.
  - now destruct (calls self cs2).
  - destruct (process self observation) as [s r]. rewrite IH.
    now destruct (calls s cs1).
  - apply IH.
Qed.

Lemma calls_config (cs : list Call) : forall self : GestureController,
  _config (fst (calls self cs)) = _config self.
Proof.
  induction cs as [|[observation|] cs IH]; intros self; simpl.
  - reflexivity.
  - pose proof (process_config self observation) as C.
    destruct (process self observation) as [s r]. simpl in C.
    specialize (IH s). destruct (calls s cs). simpl in *. congruence.
  - now rewrite IH.
Qed.

Lemma pinched_config (self self' : GestureController)
    (observation : HandObservation) :
  _config self' = _config self ->
  pinched self' observation = pinched self observation.
Proof. unfold pinched. now intros ->. Qed.

(** X1: on a controller in use since its creation, [_drag_active] and
    [_last_pinched] are equal after every call, and they tell whether the
    last call was a [process] call with a pinch. *)
Theorem pinch_flags_follow_last_call
    (config : GestureConfig) (cs : list Call) (last : Call) :
  let self := fst (calls (init config) (cs ++ [last])) in
  _drag_active self = _last_pinched self /\
  _last_pinched self =
    match last with
    | Process observation => pinched (init config) observation
    | Reset => false
    end.
Proof.
  cbv zeta. rewrite calls_app. simpl fst.
  pose proof (calls_config cs (init config)) as C.
  destruct (calls (init config) cs) as [s rs]. simpl in *.
  destruct last as [observation|]; simpl.
  - rewrite <- (pinched_config (init config) s observation C).
    destruct (pinched s observation) eqn:P.
    + destruct (process_pinched s observation P) as (_ & _ & _ & D & L & _).
      destruct (process s observation). simpl in *. split; congruence.
    + destruct (process_released s observation P) as (_ & _ & _ & D & L & _).
      destruct (process s observation). simpl in *. split; congruence.
  - split; reflexivity.
Qed.

(** X2: in every result of [process] at most one of [is_click] and
    [is_drag] is set, and one of them is exactly when there is a pinch; the
    gesture is [IDLE] exactly when there is no pointer, [CLICK] exactly
    when [is_click] is set and there is a pointer, and [DRAG] exactly when
    [is_drag] is set and there is a pointer. *)
Theorem result_flags_match_gesture
    (self : GestureController) (observation : HandObservation) :
  let result := snd (process self observation) in
  is_click result && is_drag result = false /\
  is_click result || is_drag result = pinched self observation /\
  (gesture result = IDLE <-> pointer result = None) /\
  (gesture result = CLICK <->
     is_click result = true /\ pointer result <> None) /\
  (gesture result = DRAG <->
     is_drag result = true /\ pointer result <> None).
Proof.
  cbv zeta. destruct (pinched self observation) eqn:P.
  - destruct (process_pinched self observation P) as (C & D & G & _).
    rewrite C, D, G.
    destruct (negb (_last_pinched self) && _);
      destruct (pointer (snd (process self observation))); simpl;
      repeat split; intros; try congruence; try discriminate;
      try (destruct H; congruence).
  - destruct (process_released self observation P) as (C & D & G & _).
    rewrite C, D, G.
    destruct (scrolling self observation);
      destruct (pointer (snd (process self observation))); simpl;
      repeat split; intros; try congruence; try discriminate;
      try (destruct H; congruence).
Qed.

(** X3: [process] returns a pointer exactly when the observation has at
    least nine landmarks; with fewer, the smoothed position kept by the
    controller is left as it was. *)
Theorem pointer_needs_nine_landmarks
    (self : GestureController) (observation : HandObservation) :
  let self' := fst (process self observation) in
  let result := snd (process self observation) in
  (pointer result = None <->
     (List.length (landmarks observation) < 9)%nat) /\
  (pointer result = None ->
     _smoothed_position self' = _smoothed_position self).
Proof.
  cbv zeta. rewrite process_pointer.
  assert (L : landmark_at observation 8 = None
              <-> (List.length (landmarks observation) < 9)%nat).
  { unfold landmark_at. rewrite nth_error_None. lia. }
  rewrite <- L. unfold process, _compute_pointer.
  destruct (landmark_at observation 8) as [tip|]; simpl.
  - split; [split; discriminate|discriminate].
  - split; [tauto|]. intros _.
    destruct (scroll_check _ _) as [g d].
    destruct (_ <? _); [destruct (_ && _)|]; reflexivity.
Qed.

(** X4: while a pinch is held, that is in [process] calls that follow
    one another and all see a pinch, only the first call can return a click;
    every later one returns a drag, whatever the timestamps. *)
Theorem held_pinch_clicks_once
    (self : GestureController) (first : HandObservation)
    (later : list HandObservation) :
  pinched self first = true ->
  Forall (fun observation => pinched self observation = true) later ->
  let results :=
    snd (calls (fst (process self first)) (map Process later)) in
  List.length results = List.length later /\
  Forall (fun result => is_click result = false /\ is_drag result = true)
         results.
Proof.
  intros P1 H. cbv zeta.
  destruct (process_pinched self first P1) as (_ & _ & _ & _ & L & _).
  pose proof (process_config self first) as C.
  revert L C. generalize (fst (process self first)). intros s L C.
  revert s L C. induction H as [|observation later P _ IH]; intros s L C; simpl.
  - split; [reflexivity|constructor].
  - assert (P' : pinched s observation = true).
    { now rewrite (pinched_config self s observation C). }
    destruct (process_pinched s observation P') as (K & D & _ & _ & L' & _).
    pose proof (process_config s observation) as C'.
    rewrite L in K, D. simpl in K, D.
    destruct (process s observation) as [s' r]. simpl in *.
    destruct (IH s' L' (eq_trans C' C)) as [N F].
    destruct (calls s' (map Process later)) as [s'' rs]. simpl in *.
    split; [now rewrite N|]. constructor; auto.
Qed.

Lemma held_pinch_clicks_once_witness :
  Forall (fun result => is_click result = false /\ is_drag result = true)
    (snd (calls (fst (process (init default_gesture) (pinch 1)))
            (map Process [pinch 2; pinch 3]))).
Proof.
  apply (held_pinch_clicks_once (init default_gesture) (pinch 1)
           [pinch 2; pinch 3]).
  - vm_compute; reflexivity.
  - repeat constructor.
Defined.

(** X5: a new controller takes its last click to be at time 0; so a pinch
    whose timestamp does not exceed [debounce_ms / 1000] is returned as a
    drag, not as a click, although no click came before. *)
Theorem early_pinch_on_new_controller_is_drag
    (config : GestureConfig) (observation : HandObservation) :
  pinched (init config) observation = true ->
  (timestamp observation <=? float_of_int (debounce_ms config) / 1000) = true ->
  let result := snd (process (init config) observation) in
  is_click result = false /\ is_drag result = true.
Proof.
  intros P W. cbv zeta.
  destruct (process_pinched (init config) observation P) as (C & D & _).
  assert (N : _is_debounced (init config) (timestamp observation) = false).
  { unfold _is_debounced. simpl. rewrite sub_zero_r. now apply leb_not_gt. }
  rewrite N in C, D. simpl in C, D. now split.
Qed.

Lemma early_pinch_on_new_controller_is_drag_witness :
  is_click (snd (process (init default_gesture) (pinch 0.1))) = false /\
  is_drag (snd (process (init default_gesture) (pinch 0.1))) = true.
Proof.
  apply (early_pinch_on_new_controller_is_drag default_gesture (pinch 0.1)).
  - vm_compute; reflexivity.
  - vm_compute; reflexivity.
Defined.

(** X6: when landmark 4 or landmark 8 is missing, [_distance] answers 1;
    so with a click threshold of at most 1 the call sees no pinch: it
    returns neither a click nor a drag and leaves both pinch flags clear. *)
Theorem missing_tip_is_no_pinch
    (self : GestureController) (observation : HandObservation) :
  (List.length (landmarks observation) < 9)%nat ->
  (click_threshold (_config self) <=? 1) = true ->
  let self' := fst (process self observation) in
  let result := snd (process self observation) in
  is_click result = false /\
  is_drag result = false /\
  _last_pinched self' = false /\
  _drag_active self' = false /\
  _last_event_time self' = _last_event_time self.
Proof.
  intros H T. cbv zeta.
  assert (L : landmark_at observation 8 = None).
  { apply nth_error_None. lia. }
  assert (P : pinched self observation = false).
  { unfold pinched, _distance. rewrite L.
    destruct (landmark_at observation 4); now apply leb_not_gt. }
  destruct (process_released self observation P) as (C & D & _ & A & B & E).
  auto.
Qed.

Lemma missing_tip_is_no_pinch_witness :
  is_click (snd (process (fst (process (init default_gesture) (pinch 1)))
                         (cut_short 2))) = false /\
  _last_pinched (fst (process (fst (process (init default_gesture) (pinch 1)))
                              (cut_short 2))) = false.
Proof.
  assert (H := missing_tip_is_no_pinch
                 (fst (process (init default_gesture) (pinch 1))) (cut_short 2)).
  split; apply H; try (simpl; lia); vm_compute; reflexivity.
Defined.

(** X7: when landmark 12 is missing, [_vertical_delta] answers 0; so with
    a scroll threshold of at least 0 the call returns a scroll delta of 0
    and never the gesture [SCROLL]. *)
Theorem missing_middle_tip_is_no_scroll
    (self : GestureController) (observation : HandObservation) :
  (List.length (landmarks observation) < 13)%nat ->
  (0 <=? scroll_threshold (_config self)) = true ->
  let result := snd (process self observation) in
  scroll_delta result = 0 /\ gesture result <> SCROLL.
Proof.
  intros H T. cbv zeta.
  assert (L : landmark_at observation 12 = None).
  { apply nth_error_None. lia. }
  assert (V : _vertical_delta observation 8 12 = 0).
  { unfold _vertical_delta. rewrite L. now destruct (landmark_at observation 8). }
  assert (S : scrolling self observation = false).
  { unfold scrolling. rewrite V. change (abs 0) with 0. now apply leb_not_gt. }
  split.
  - rewrite process_scroll_delta, V. unfold scroll_check.
    change (abs 0) with 0. now rewrite (leb_not_gt _ _ T).
  - destruct (pinched self observation) eqn:P.
    + destruct (process_pinched self observation P) as (_ & _ & G & _).
      rewrite G. destruct (pointer _); [destruct (_ && _)|]; discriminate.
    + destruct (process_released self observation P) as (_ & _ & G & _).
      rewrite G, S. destruct (pointer _); discriminate.
Qed.

Lemma missing_middle_tip_is_no_scroll_witness :
  scroll_delta (snd (process (init default_gesture) (cut_short 1))) = 0.
Proof.
  apply (missing_middle_tip_is_no_scroll (init default_gesture) (cut_short 1)).
  - simpl. lia.
  - vm_compute; reflexivity.
Defined.

(** ** A NaN coordinate *)

Lemma add_nan_l (a b : float) : is_nan a = true -> is_nan (a + b) = true.
Proof. rewrite !is_nan_Prim2SF, add_spec. now intros ->. Qed.

Lemma process_smoothed_position
    (self : GestureController) (observation : HandObservation) :
  _smoothed_position (fst (process self observation))
  = _smoothed_position (fst (_compute_pointer self observation)).
Proof.
  unfold process.
  destruct (_compute_pointer self observation) as [s p].
  destruct (scroll_check (_config s) _) as [g d].
  destruct (_ <? _); [destruct (_ && _)|]; reflexivity.
Qed.

Lemma process_poisons
    (self : GestureController) (observation : HandObservation)
    (fingertip : HandLandmark) :
  landmark_at observation 8 = Some fingertip ->
  is_nan (x fingertip) = true \/ poisoned self ->
  poisoned (fst (process self observation)) /\
  nan_pointer (snd (process self observation)).
Proof.
  intros L H. unfold poisoned, nan_pointer.
  rewrite process_smoothed_position, process_pointer.
  unfold _compute_pointer. rewrite L. unfold poisoned in H.
  destruct (_smoothed_position self) as [[sx sy]|]; simpl.
  - assert (N : is_nan (np_clip (smoothing_alpha (_config self)) 0 1 * x fingertip
                        + (1 - np_clip (smoothing_alpha (_config self)) 0 1) * sx)
                = true).
    { destruct H as [H|H].
      - now apply add_nan_l, mul_nan_r.
      - now apply add_nan_r, mul_nan_r. }
    split; [exact N|]. now rewrite (np_clip_nan _ N).
  - destruct H as [H|[]]. split; [exact H|]. now rewrite (np_clip_nan _ H).
Qed.

(** X8: a NaN as the [x] of the index fingertip gives a pointer with a
    NaN [x] in that call, and smoothing carries it into every later call
    (each with landmark 8) until the controller is reset; after [reset] the
    pointer is again the clipped position of the fingertip. *)
Theorem nan_fingertip_poisons_pointer
    (self : GestureController) (observation : HandObservation)
    (fingertip : HandLandmark) (later : list HandObservation) :
  landmark_at observation 8 = Some fingertip ->
  is_nan (x fingertip) = true ->
  Forall (fun o => landmark_at o 8 <> None) later ->
  let first := process self observation in
  let rest := calls (fst first) (map Process later) in
  nan_pointer (snd first) /\
  Forall nan_pointer (snd rest) /\
  (forall (o : HandObservation) (tip : HandLandmark),
     landmark_at o 8 = Some tip ->
     pointer (snd (process (reset (fst rest)) o))
     = Some (np_clip (x tip) 0 1, np_clip (y tip) 0 1)).
Proof.
  intros L N H. cbv zeta.
  destruct (process_poisons self observation fingertip L (or_introl N))
    as [P0 R0].
  split; [exact R0|]. revert P0. generalize (fst (process self observation)).
  induction H as [|o later Lo _ IH]; intros s P; simpl.
  - split; [constructor|]. intros o tip Lt.
    rewrite process_pointer. unfold _compute_pointer. now rewrite Lt.
  - destruct (landmark_at o 8) as [tip|] eqn:E; [|congruence].
    destruct (process_poisons s o tip E (or_intror P)) as [P' R'].
    destruct (process s o) as [s' r]. simpl in *.
    destruct (IH s' P') as [F K].
    destruct (calls s' (map Process later)) as [s'' rs]. simpl in *.
    split; [constructor; assumption|exact K].
Qed.

Lemma nan_fingertip_poisons_pointer_witness :
  nan_pointer
    (snd (process (init default_gesture)
            (TestGestures._observation (nan, 0.5) (0, 0) (0.5, 0.5) 1))) /\
  Forall nan_pointer
    (snd (calls (fst (process (init default_gesture)
                        (TestGestures._observation (nan, 0.5) (0, 0) (0.5, 0.5) 1)))
            (map Process [open_hand 2]))).
Proof.
  destruct (nan_fingertip_poisons_pointer (init default_gesture)
              (TestGestures._observation (nan, 0.5) (0, 0) (0.5, 0.5) 1)
              {| x := nan; y := 0.5; z := 0; visibility := 1 |}
              [open_hand 2] eq_refl eq_refl) as (A & B & _).
  - repeat constructor. vm_compute. discriminate.
  - split; assumption.
Defined.

(** ** The engine over a whole run *)

Lemma held_after_app (effects later : list Engine.Effect) : forall held : bool,
  held_after held (effects ++ later)
  = match held_after held effects with
    | Some held' => held_after held' later
    | None => None
    end.
Proof.
  induction effects as [|e effects IH]; intros held; simpl.
  - reflexivity.
  - destruct e as [| | | | |[]| | |]; try apply IH; destruct held;
      try reflexivity; apply IH.
Qed.

(** With the debug view off an iteration has one of four forms. *)
Lemma tick_debug_off (screen_w screen_h : Z)
    (self : Engine.VirtualMouseEngine) (last_seen : float) (t : Engine.Tick) :
  show_debug (app (Engine._config self)) = false ->
  Engine.tick screen_w screen_h self last_seen t
  = if Engine.stop_is_set t
    then (self, last_seen, [], Engine.Break "stopped")
    else
      match Engine.detected t with
      | None =>
          let self' :=
            Engine.set_gestures self (reset (Engine._gestures self)) in
          if gt (max_inactive_seconds (app (Engine._config self))) 0
             && gt (Engine.loop_time t - last_seen)
                   (max_inactive_seconds (app (Engine._config self)))
          then (self', last_seen,
                [Engine.GesturesReset; Engine.CameraSetIdle true],
                Engine.Break "idle_timeout")
          else (self', last_seen,
                [Engine.GesturesReset; Engine.CameraSetIdle true; Engine.Sleep],
                Engine.Continue)
      | Some observation =>
          let step := process (Engine._gestures self) observation in
          match Engine._apply_gesture (Engine.set_gestures self (fst step))
                  (snd step) screen_w screen_h with
          | inl e =>
              (Engine.set_gestures self (fst step), timestamp observation,
               [Engine.CameraSetIdle false; Engine.GesturesProcess observation],
               Engine.Raise e)
          | inr (self', calls) =>
              (self', timestamp observation,
               [Engine.CameraSetIdle false; Engine.GesturesProcess observation]
               ++ map Engine.Pointer calls,
               Engine.Continue)
          end
      end.
Proof.
  intros D. unfold Engine.tick.
  destruct (Engine.stop_is_set t); [reflexivity|].
  destruct (Engine.detected t) as [observation|].
  - destruct (process (Engine._gestures self) observation) as [g r]. simpl.
    destruct (Engine._apply_gesture _ r screen_w screen_h)
      as [e|[self' calls]] eqn:A; [reflexivity|].
    assert (C : Engine._config self' = Engine._config self).
    { revert A. unfold Engine._apply_gesture.
      destruct (Engine.move_call _ _ _); [discriminate|].
      destruct (_ && _); [|destruct (GestureType_eqb _ DRAG)];
        destruct (Engine._dragging _); simpl; intros [= <- _]; reflexivity. }
    unfold Engine.debug_view. rewrite C, D. now rewrite app_nil_r.
  - unfold Engine.debug_view. simpl. rewrite D. simpl.
    now destruct (_ && _).
Qed.

(** [_apply_gesture] keeps the configuration and the classifier, presses
    only a button that is up and releases only one that is down, and
    afterwards holds the button exactly for the gesture [DRAG]. *)
Lemma apply_gesture_button (self self' : Engine.VirtualMouseEngine)
    (event : GestureResult) (screen_w screen_h : Z)
    (calls : list Engine.PointerCall) :
  Engine._apply_gesture self event screen_w screen_h = inr (self', calls) ->
  Engine._config self' = Engine._config self /\
  Engine._gestures self' = Engine._gestures self /\
  Engine._dragging self' = GestureType_eqb (gesture event) DRAG /\
  held_after (Engine._dragging self) (map Engine.Pointer calls)
  = Some (Engine._dragging self') /\
  Engine.releases (map Engine.Pointer calls)
  = (if Engine._dragging self && negb (GestureType_eqb (gesture event) DRAG)
     then 1 else 0)%nat.
Proof.
  unfold Engine._apply_gesture.
  destruct (Engine.move_call _ _ _) as [e|moves] eqn:M; [discriminate|].
  assert (Mv : moves = [] \/ exists px py, moves = [Engine.Move px py]).
  { revert M. unfold Engine.move_call.
    destruct (pointer event) as [[px py]|]; [|intros [= <-]; now left].
    destruct (py_int _); [discriminate|]. destruct (py_int _); [discriminate|].
    intros [= <-]. right. eauto. }
  destruct (gesture event); simpl; destruct (is_click event); simpl;
    destruct (Engine._dragging self) eqn:G; simpl;
    try destruct (truthy (scroll_delta event)); simpl;
    intros [= <- <-]; simpl;
    destruct Mv as [->|(px & py & ->)]; simpl; rewrite ?G; auto.
Qed.

(** With the debug view off, an iteration leaves the configuration as it
    was, and its press and release calls fit the button. *)
Lemma tick_button (screen_w screen_h : Z)
    (self : Engine.VirtualMouseEngine) (last_seen : float) (t : Engine.Tick) :
  show_debug (app (Engine._config self)) = false ->
  let '(self', _, effects, _) :=
    Engine.tick screen_w screen_h self last_seen t in
  Engine._config self' = Engine._config self /\
  held_after (Engine._dragging self) effects = Some (Engine._dragging self').
Proof.
  intros D. rewrite (tick_debug_off _ _ _ _ _ D).
  destruct (Engine.stop_is_set t); [split; reflexivity|].
  destruct (Engine.detected t) as [observation|].
  - cbv zeta.
    destruct (Engine._apply_gesture _ _ screen_w screen_h)
      as [e|[self' calls]] eqn:A.
    + split; reflexivity.
    + destruct (apply_gesture_button _ _ _ _ _ _ A) as (C & _ & _ & H & _).
      split; [exact C|exact H].
  - cbv zeta. destruct (_ && _); split; reflexivity.
Qed.

Lemma loop_button (screen_w screen_h : Z) (ticks : list Engine.Tick) :
  forall (self : Engine.VirtualMouseEngine) (last_seen : float),
    show_debug (app (Engine._config self)) = false ->
    let '(self', effects, _) :=
      Engine.loop screen_w screen_h self last_seen ticks in
    held_after (Engine._dragging self) effects = Some (Engine._dragging self').
Proof.
  induction ticks as [|t ticks IH]; intros self last_seen D; simpl.
  - reflexivity.
  - pose proof (tick_button screen_w screen_h self last_seen t D) as T.
    destruct (Engine.tick screen_w screen_h self last_seen t)
      as [[[s l] e] f].
    destruct T as [C H]. destruct f; try exact H.
    assert (D' : show_debug (app (Engine._config s)) = false) by congruence.
    specialize (IH s l D').
    destruct (Engine.loop screen_w screen_h s l ticks) as [[s' e'] o].
    now rewrite held_after_app, H.
Qed.

(** In a run with the debug view off, however the run ends, the [press]
    and [release] calls of the engine come in turn, as its flag [_dragging]
    says, and the flag is false when the run is over. *)
Lemma run_presses_and_releases_in_turn
    (self : Engine.VirtualMouseEngine) (screen : Z * Z) (start : float)
    (ticks : list Engine.Tick) :
  show_debug (app (Engine._config self)) = false ->
  let '(final, effects, _) := Engine.run self screen start ticks in
  held_after (Engine._dragging self) effects = Some false /\
  Engine._dragging final = false.
Proof.
  intros D. unfold Engine.run, Engine.run_from.
  pose proof (loop_button (fst screen) (snd screen) ticks self start D) as L.
  destruct (Engine.loop (fst screen) (snd screen) self start ticks)
    as [[s e] o].
  unfold Engine.finally_. destruct (Engine._dragging s) eqn:G; simpl.
  - rewrite held_after_app, L. simpl. split; reflexivity.
  - rewrite held_after_app, L. simpl. split; [reflexivity|exact G].
Qed.

Lemma run_presses_and_releases_in_turn_witness :
  held_after false
    (snd (fst (Engine.run (Engine.init Config.default) (1366, 768)%Z 0
                 [seen (pinch 1); seen (pinch 1.1); lost 1.2; seen (pinch 1.3)])))
  = Some false.
Proof.
  pose proof (run_presses_and_releases_in_turn (Engine.init Config.default)
                (1366, 768)%Z 0
                [seen (pinch 1); seen (pinch 1.1); lost 1.2; seen (pinch 1.3)]
                eq_refl) as H.
  destruct (Engine.run _ _ _ _) as [[final effects] outcome].
  exact (proj1 H).
Defined.

Lemma loop_reason (screen_w screen_h : Z) (ticks : list Engine.Tick) :
  forall (self : Engine.VirtualMouseEngine) (last_seen : float),
    show_debug (app (Engine._config self)) = false ->
    gt (max_inactive_seconds (app (Engine._config self))) 0 = false ->
    let '(_, _, outcome) :=
      Engine.loop screen_w screen_h self last_seen ticks in
    forall reason : string, outcome = inr reason -> reason = "stopped"%string.
Proof.
  induction ticks as [|t ticks IH]; intros self last_seen D M; simpl.
  - now intros reason [= <-].
  - pose proof (tick_button screen_w screen_h self last_seen t D) as T.
    rewrite (tick_debug_off _ _ _ _ _ D) in *.
    destruct (Engine.stop_is_set t); [now intros reason [= <-]|].
    destruct (Engine.detected t) as [observation|]; cbv zeta in *.
    + destruct (Engine._apply_gesture _ _ screen_w screen_h)
        as [e|[s calls]]; [discriminate|].
      destruct T as [C _].
      assert (D' : show_debug (app (Engine._config s)) = false) by congruence.
      assert (M' : gt (max_inactive_seconds (app (Engine._config s))) 0 = false)
        by congruence.
      specialize (IH s (timestamp observation) D' M').
      now destruct (Engine.loop _ _ s _ ticks) as [[s' e'] o].
    + rewrite M in *. simpl in *.
      specialize (IH (Engine.set_gestures self (reset (Engine._gestures self)))
                     last_seen D M).
      now destruct (Engine.loop _ _ _ _ ticks) as [[s' e'] o].
Qed.

(** X10: with [max_inactive_seconds] not above 0 the idle timeout is off:
    a run (debug view off) that returns a result returns the reason
    ["stopped"], however long the hand stays away. *)
Theorem no_idle_timeout_when_disabled
    (self : Engine.VirtualMouseEngine) (screen : Z * Z) (start : float)
    (ticks : list Engine.Tick) (result : Engine.EngineResult) :
  show_debug (app (Engine._config self)) = false ->
  gt (max_inactive_seconds (app (Engine._config self))) 0 = false ->
  snd (Engine.run self screen start ticks) = inr result ->
  Engine.reason result = "stopped"%string.
Proof.
  intros D M. unfold Engine.run, Engine.run_from.
  pose proof (loop_reason (fst screen) (snd screen) ticks self start D M) as L.
  destruct (Engine.loop (fst screen) (snd screen) self start ticks)
    as [[s e] o].
  destruct (Engine.finally_ s) as [s' c]. simpl.
  destruct o as [e'|reason]; [discriminate|].
  intros [= <-]. simpl. now apply L.
Qed.

Lemma no_idle_timeout_when_disabled_witness :
  exists result : Engine.EngineResult,
    snd (Engine.run
           {| Engine._config :=
                {| Config.gesture := default_gesture;
                   Config.app := {| show_debug := false;
                                    max_inactive_seconds := 0 |} |};
              Engine._gestures := init default_gesture;
              Engine._dragging := false |}
           (1366, 768)%Z 0 [lost 100; lost 200]) = inr result /\
    Engine.reason result = "stopped"%string.
Proof.
  eexists. split; [reflexivity|].
  apply (no_idle_timeout_when_disabled
           {| Engine._config :=
                {| Config.gesture := default_gesture;
                   Config.app := {| show_debug := false;
                                    max_inactive_seconds := 0 |} |};
              Engine._gestures := init default_gesture;
              Engine._dragging := false |}
           (1366, 768)%Z 0 [lost 100; lost 200]).
  - reflexivity.
  - reflexivity.
  - reflexivity.
Defined.

(** X11: a stop request is honoured at the next frame, before the frame
    is looked at: after iterations that all continue, the iteration that
    finds the stop event set ends the run with the reason ["stopped"]; that
    frame and the frames after it reach neither the classifier nor the
    pointer, and only the cleanup follows. *)
Theorem stop_ends_run_before_the_frame
    (self0 : Engine.VirtualMouseEngine) (screen : Z * Z) (start : float)
    (before : list Engine.Tick) (t : Engine.Tick) (after : list Engine.Tick)
    (self : Engine.VirtualMouseEngine) (last_seen : float)
    (shown : list Engine.Effect) :
  Engine.advance (fst screen) (snd screen) self0 start before
    = Some (self, last_seen, shown) ->
  Engine.stop_is_set t = true ->
  Engine.run self0 screen start (before ++ t :: after)
  = (fst (Engine.finally_ self),
     Engine.CameraStart :: shown ++ snd (Engine.finally_ self),
     inr {| Engine.reason := "stopped" |}).
Proof.
  intros A S. unfold Engine.run, Engine.run_from.
  rewrite (loop_after_advance _ _ _ _ _ _ _ _ (t :: after) A).
  simpl. unfold Engine.tick. rewrite S.
  destruct (Engine.finally_ self) as [s c]. simpl. now rewrite app_nil_r.
Qed.

Lemma stop_ends_run_before_the_frame_witness :
  snd (Engine.run (Engine.init Config.default) (1366, 768)%Z 0
         ([seen (pinch 1)] ++
          {| Engine.stop_is_set := true;
             Engine.detected := Some (pinch 2);
             Engine.loop_time := 2;
             Engine.imshow_ok := true;
             Engine.exit_key := false |} :: [seen (pinch 3)]))
  = inr {| Engine.reason := "stopped" |}.
Proof.
  destruct (Engine.advance 1366 768 (Engine.init Config.default) 0
              [seen (pinch 1)]) as [[[self last_seen] shown]|] eqn:A;
    [|vm_compute in A; discriminate].
  rewrite (stop_ends_run_before_the_frame (Engine.init Config.default)
             (1366, 768)%Z 0 [seen (pinch 1)]
             {| Engine.stop_is_set := true;
                Engine.detected := Some (pinch 2);
                Engine.loop_time := 2;
                Engine.imshow_ok := true;
                Engine.exit_key := false |} [seen (pinch 3)]
             self last_seen shown A eq_refl).
  reflexivity.
Defined.

(** X12: [run] catches nothing.  After iterations that all continue, a
    frame whose index fingertip has a NaN [x] makes [int] raise
    [ValueError] in [_apply_gesture], before any call to the pointer for
    that frame; the exception leaves [run] after the [finally] block, which
    stops the camera and releases the button once if it was held. *)
Theorem nan_fingertip_aborts_run
    (self0 : Engine.VirtualMouseEngine) (screen : Z * Z) (start : float)
    (before : list Engine.Tick) (t : Engine.Tick) (after : list Engine.Tick)
    (self : Engine.VirtualMouseEngine) (last_seen : float)
    (shown : list Engine.Effect)
    (observation : HandObservation) (fingertip : HandLandmark) :
  Engine.advance (fst screen) (snd screen) self0 start before
    = Some (self, last_seen, shown) ->
  Engine.stop_is_set t = false ->
  Engine.detected t = Some observation ->
  landmark_at observation 8 = Some fingertip ->
  is_nan (x fingertip) = true ->
  exists final : Engine.VirtualMouseEngine,
    Engine.run self0 screen start (before ++ t :: after)
    = (final,
       Engine.CameraStart :: shown ++
       [Engine.CameraSetIdle false; Engine.GesturesProcess observation;
        Engine.CameraStop] ++
       (if Engine._dragging self then [Engine.Pointer Engine.Release] else []),
       inl ValueError) /\
    Engine._dragging final = false.
Proof.
  intros A S D L N. unfold Engine.run, Engine.run_from.
  rewrite (loop_after_advance _ _ _ _ _ _ _ _ (t :: after) A).
  simpl. unfold Engine.tick. rewrite S, D.
  destruct (process_poisons (Engine._gestures self) observation fingertip L
              (or_introl N)) as [_ R].
  destruct (process (Engine._gestures self) observation) as [g r].
  simpl in R. unfold nan_pointer in R.
  destruct (pointer r) as [[px py]|] eqn:P; [|contradiction].
  unfold Engine._apply_gesture, Engine.move_call. rewrite P.
  rewrite (py_int_nan _ (mul_nan_l _ _ R)).
  unfold Engine.finally_. simpl.
  destruct (Engine._dragging self) eqn:G; simpl; rewrite <- app_assoc; simpl;
    eexists; (split; [reflexivity|]); simpl; auto.
Qed.

Lemma nan_fingertip_aborts_run_witness :
  snd (Engine.run (Engine.init Config.default) (1366, 768)%Z 0
         ([seen (pinch 1)] ++
          seen (TestGestures._observation (nan, 0.5) (0, 0) (0.5, 0.5) 2)
          :: [seen (pinch 3)]))
  = inl ValueError.
Proof.
  destruct (Engine.advance 1366 768 (Engine.init Config.default) 0
              [seen (pinch 1)]) as [[[self last_seen] shown]|] eqn:A;
    [|vm_compute in A; discriminate].
  destruct (nan_fingertip_aborts_run (Engine.init Config.default)
              (1366, 768)%Z 0 [seen (pinch 1)]
              (seen (TestGestures._observation (nan, 0.5) (0, 0) (0.5, 0.5) 2))
              [seen (pinch 3)] self last_seen shown
              (TestGestures._observation (nan, 0.5) (0, 0) (0.5, 0.5) 2)
              {| x := nan; y := 0.5; z := 0; visibility := 1 |}
              A eq_refl eq_refl eq_refl eq_refl) as (final & E & _).
  now rewrite E.
Defined.

(** ** The button and the wheel after one frame *)

Lemma nonzero_abs (a : float) : nonzero a -> nonzero (abs a).
Proof. unfold nonzero. rewrite abs_spec. now destruct (Prim2SF a). Qed.

Lemma nonzero_opp (a : float) : nonzero a -> nonzero (- a).
Proof. unfold nonzero. rewrite opp_spec. now destruct (Prim2SF a). Qed.

Lemma nonzero_truthy (a : float) : nonzero a -> truthy a = true.
Proof.
  unfold nonzero, truthy. rewrite eqb_spec. unfold SFeqb.
  change (Prim2SF 0) with (S754_zero false).
  destruct (Prim2SF a) as [s|s| |s m e]; try contradiction; intros _;
    destruct s; reflexivity.
Qed.

(** Above a threshold that is not negative lies no zero. *)
Lemma above_threshold_nonzero (a threshold : float) :
  (0 <=? threshold) = true -> gt (abs a) threshold = true -> nonzero (abs a).
Proof.
  unfold gt, nonzero. rewrite leb_spec, ltb_spec, abs_spec.
  change (Prim2SF 0) with (S754_zero false). unfold SFleb, SFltb.
  destruct (Prim2SF a) as [s|s| |s m e],
           (Prim2SF threshold) as [s'|s'| |s' m' e']; simpl; trivial;
    try destruct s'; simpl; congruence.
Qed.

Lemma scroll_delta_nonzero (config : GestureConfig) (middle_delta : float) :
  (0 <=? scroll_threshold config) = true ->
  gt (abs middle_delta) (scroll_threshold config) = true ->
  truthy (- copysign (py_min (abs middle_delta) 0.25) middle_delta) = true.
Proof.
  intros T S. apply nonzero_truthy, nonzero_opp.
  assert (M : nonzero (py_min (abs middle_delta) 0.25)).
  { unfold py_min. destruct (_ <? _); [exact I|].
    now apply (above_threshold_nonzero _ _ T). }
  unfold copysign.
  destruct (signbit middle_delta); [apply nonzero_opp|]; now apply nonzero_abs.
Qed.

Ltac settle_iff :=
  split; intros;
  repeat match goal with H : _ /\ _ |- _ => destruct H end;
  try discriminate; try congruence; try (repeat split; congruence).

(** X13: when [_apply_gesture] has handled the result of [process] for a
    frame, the button is held exactly if the frame is a drag with a pointer,
    whatever was held before; a frame without a pinch brings no click and
    no press, and releases the button, once, if it was held. *)
Theorem button_follows_frame
    (self self' : Engine.VirtualMouseEngine) (observation : HandObservation)
    (screen_w screen_h : Z) (calls : list Engine.PointerCall) :
  let step := process (Engine._gestures self) observation in
  Engine._apply_gesture (Engine.set_gestures self (fst step)) (snd step)
    screen_w screen_h = inr (self', calls) ->
  (Engine._dragging self' = true <->
     is_drag (snd step) = true /\ pointer (snd step) <> None) /\
  (pinched (Engine._gestures self) observation = false ->
     Engine._dragging self' = false /\
     Engine.releases (map Engine.Pointer calls)
     = (if Engine._dragging self then 1 else 0)%nat /\
     ~ In Engine.Click calls /\ ~ In Engine.Press calls).
Proof.
  intros step A.
  destruct (apply_gesture_button _ _ _ _ _ _ A) as (_ & _ & D & _ & R).
  simpl in R. split.
  - rewrite D. unfold step.
    destruct (pinched (Engine._gestures self) observation) eqn:P.
    + destruct (process_pinched _ observation P) as (_ & Dr & G & _).
      rewrite Dr, G.
      destruct (pointer _); destruct (negb _ && _); simpl; settle_iff.
    + destruct (process_released _ observation P) as (_ & Dr & G & _).
      rewrite Dr, G.
      destruct (pointer _); [destruct (scrolling _ _)|]; simpl; settle_iff.
  - intros P.
    destruct (process_released _ observation P) as (C & _ & G & _).
    fold step in C, G.
    assert (N : GestureType_eqb (gesture (snd step)) DRAG = false
                /\ GestureType_eqb (gesture (snd step)) CLICK = false).
    { rewrite G. destruct (pointer _); [destruct (scrolling _ _)|];
        split; reflexivity. }
    destruct N as [Nd Nc]. rewrite Nd in *. rewrite andb_true_r in R.
    split; [exact D|]. split; [exact R|].
    revert A. unfold Engine._apply_gesture.
    destruct (Engine.move_call _ _ _) as [e|moves] eqn:M; [discriminate|].
    assert (Mv : moves = [] \/ exists px py, moves = [Engine.Move px py]).
    { revert M. unfold Engine.move_call.
      destruct (pointer (snd step)) as [[px py]|]; [|intros [= <-]; now left].
      destruct (py_int _); [discriminate|]. destruct (py_int _); [discriminate|].
      intros [= <-]. right. eauto. }
    rewrite Nc, Nd. simpl.
    destruct (Engine._dragging self); destruct (_ && _); simpl;
      intros [= _ <-];
      destruct Mv as [->|(px & py & ->)]; simpl; split; intros H;
      repeat (destruct H as [H|H]; try discriminate); contradiction.
Qed.

Lemma button_follows_frame_witness :
  exists (self' : Engine.VirtualMouseEngine) (calls : list Engine.PointerCall),
    Engine._apply_gesture
      (Engine.set_gestures
         {| Engine._config := Config.default;
            Engine._gestures := fst (process (init default_gesture) (pinch 1));
            Engine._dragging := true |}
         (fst (process (fst (process (init default_gesture) (pinch 1)))
                 (open_hand 2))))
      (snd (process (fst (process (init default_gesture) (pinch 1)))
              (open_hand 2)))
      1366 768 = inr (self', calls) /\
    Engine._dragging self' = false /\
    Engine.releases (map Engine.Pointer calls) = 1%nat.
Proof.
  do 2 eexists. split; [reflexivity|].
  refine ((fun H => conj (proj1 H) (proj1 (proj2 H)))
            (proj2 (button_follows_frame
                      {| Engine._config := Config.default;
                         Engine._gestures :=
                           fst (process (init default_gesture) (pinch 1));
                         Engine._dragging := true |}
                      _ (open_hand 2) 1366 768 _ eq_refl) eq_refl)).
Defined.

(** X14: with a scroll threshold that is not negative, [_apply_gesture]
    hands a scroll to the pointer for the result of [process] exactly when
    the gesture is [SCROLL], which takes a pointer, a middle fingertip off
    by more than the threshold and no pinch; the amount is the scroll delta
    times 120 and it is the last call for the frame. *)
Theorem scroll_call_iff_scroll_gesture
    (self self' : Engine.VirtualMouseEngine) (observation : HandObservation)
    (screen_w screen_h : Z) (calls : list Engine.PointerCall) :
  let step := process (Engine._gestures self) observation in
  (0 <=? scroll_threshold (Gesture._config (Engine._gestures self))) = true ->
  Engine._apply_gesture (Engine.set_gestures self (fst step)) (snd step)
    screen_w screen_h = inr (self', calls) ->
  (gesture (snd step) = SCROLL <->
     pointer (snd step) <> None /\
     scrolling (Engine._gestures self) observation = true /\
     pinched (Engine._gestures self) observation = false) /\
  filter is_scroll (map Engine.Pointer calls)
  = (if GestureType_eqb (gesture (snd step)) SCROLL
     then [Engine.Pointer (Engine.Scroll (scroll_delta (snd step) * 120))]
     else []).
Proof.
  intros step T A.
  assert (G : gesture (snd step) = SCROLL <->
              pointer (snd step) <> None /\
              scrolling (Engine._gestures self) observation = true /\
              pinched (Engine._gestures self) observation = false).
  { unfold step.
    destruct (pinched (Engine._gestures self) observation) eqn:P.
    - destruct (process_pinched _ observation P) as (_ & _ & G & _).
      rewrite G. destruct (pointer _); [destruct (_ && _)|]; settle_iff.
    - destruct (process_released _ observation P) as (_ & _ & G & _).
      rewrite G. destruct (pointer _); [destruct (scrolling _ _)|];
        settle_iff. }
  split; [exact G|].
  assert (Tr : GestureType_eqb (gesture (snd step)) SCROLL = true ->
               truthy (scroll_delta (snd step)) = true).
  { intros E.
    assert (E' : gesture (snd step) = SCROLL)
      by (destruct (gesture (snd step)); try discriminate; reflexivity).
    apply G in E'. destruct E' as (_ & S & _).
    unfold step. rewrite process_scroll_delta. unfold scroll_check.
    unfold scrolling in S. rewrite S. simpl.
    now apply (scroll_delta_nonzero (Gesture._config (Engine._gestures self))). }
  revert A. unfold Engine._apply_gesture.
  destruct (Engine.move_call _ _ _) as [e|moves] eqn:M; [discriminate|].
  assert (Mv : moves = [] \/ exists px py, moves = [Engine.Move px py]).
  { revert M. unfold Engine.move_call.
    destruct (pointer (snd step)) as [[px py]|]; [|intros [= <-]; now left].
    destruct (py_int _); [discriminate|]. destruct (py_int _); [discriminate|].
    intros [= <-]. right. eauto. }
  destruct (GestureType_eqb (gesture (snd step)) SCROLL) eqn:E.
  - rewrite (Tr eq_refl).
    assert (E' : gesture (snd step) = SCROLL)
      by (destruct (gesture (snd step)); try discriminate; reflexivity).
    rewrite E'. simpl.
    destruct (Engine._dragging _); intros [= _ <-];
      destruct Mv as [->|(px & py & ->)]; reflexivity.
  - simpl.
    destruct (_ && _); [|destruct (GestureType_eqb _ DRAG)];
      destruct (Engine._dragging _); simpl; intros [= _ <-];
      destruct Mv as [->|(px & py & ->)]; reflexivity.
Qed.

Lemma scroll_call_iff_scroll_gesture_witness :
  exists (self' : Engine.VirtualMouseEngine) (calls : list Engine.PointerCall),
    Engine._apply_gesture
      (Engine.set_gestures (Engine.init Config.default)
         (fst (process (init default_gesture) scroll_down)))
      (snd (process (init default_gesture) scroll_down)) 1366 768
    = inr (self', calls) /\
    filter is_scroll (map Engine.Pointer calls)
    = [Engine.Pointer (Engine.Scroll (-30))].
Proof.
  do 2 eexists. split; [reflexivity|].
  exact (proj2 (scroll_call_iff_scroll_gesture (Engine.init Config.default) _
                  scroll_down 1366 768 _ eq_refl eq_refl)).
Defined.



(** ** The camera *)

Lemma set_idle_spec (self : Camera.CameraStream) (enabled : bool) :
  Camera._capture self = true ->
  Camera.matches_mode self ->
  let self' := fst (Camera.set_idle self enabled) in
  Camera._idle self' = enabled /\
  Camera.matches_mode self' /\
  Camera._capture self' = true /\
  Camera._config self' = Camera._config self /\
  (Camera._idle self = enabled -> Camera.set_idle self enabled = (self, [])).
Proof.
  unfold Camera.matches_mode, Camera.set_idle, Camera._apply_resolution.
  intros C M.
  destruct enabled, (Camera._idle self) eqn:I; simpl; rewrite ?C; simpl;
    rewrite ?I; repeat split; trivial; discriminate.
Qed.

Lemma last_nonempty {A : Type} (l : list A) : forall a d d' : A,
  last (a :: l) d = last (a :: l) d'.
Proof.
  induction l as [|b l IH]; intros a d d'; [reflexivity|].
  change (last (b :: l) d = last (b :: l) d'). apply IH.
Qed.

(** X16: on an open camera whose resolution is that of its mode, any
    sequence of [set_idle] calls leaves the idle flag as the last call asked
    and the resolution that of the mode; a call that asks for the mode the
    camera is in changes nothing and calls the capture not at all. *)
Theorem camera_resolution_follows_idle_flag
    (flags : list bool) : forall self : Camera.CameraStream,
  Camera._capture self = true ->
  Camera.matches_mode self ->
  let self' := fst (Camera.set_idles self flags) in
  Camera._idle self' = last flags (Camera._idle self) /\
  Camera.matches_mode self' /\
  Camera.set_idle self' (Camera._idle self') = (self', []).
Proof.
  induction flags as [|enabled flags IH]; intros self C M; simpl.
  - repeat split; trivial.
    destruct (set_idle_spec self (Camera._idle self) C M) as (_ & _ & _ & _ & E).
    now apply E.
  - destruct (set_idle_spec self enabled C M) as (I & M' & C' & _ & _).
    destruct (Camera.set_idle self enabled) as [s calls]. simpl in *.
    specialize (IH s C' M').
    destruct (Camera.set_idles s flags) as [s' later]. simpl in *.
    destruct IH as (I' & M'' & E). repeat split; trivial.
    rewrite I', I. destruct flags; [reflexivity|apply last_nonempty].
Qed.

Lemma camera_resolution_follows_idle_flag_witness :
  Camera._resolution
    (fst (Camera.set_idles
            {| Camera._config := Camera.default_camera;
               Camera._capture := true;
               Camera._running := true;
               Camera._resolution := (960, 540)%Z;
               Camera._idle := false |}
            [true; true; false; true]))
  = (640, 360)%Z.
Proof.
  exact (proj1 (proj2 (camera_resolution_follows_idle_flag
                         [true; true; false; true]
                         {| Camera._config := Camera.default_camera;
                            Camera._capture := true;
                            Camera._running := true;
                            Camera._resolution := (960, 540)%Z;
                            Camera._idle := false |}
                         eq_refl eq_refl))).
Defined.

(** X17: [stop] leaves the idle flag as it is and [start] applies the
    full resolution whatever the flag says.  So a camera stopped in idle
    mode and started again is flagged idle at the full resolution, and the
    [set_idle(True)] of the next frame without a hand changes nothing: the
    idle resolution comes back only after a hand has been seen. *)
Theorem restart_in_idle_mode_keeps_full_resolution
    (self : Camera.CameraStream) :
  Camera._running self = true ->
  Camera._idle self = true ->
  exists (started : Camera.CameraStream) (calls : list Camera.CaptureCall),
    Camera.start (fst (Camera.stop self)) true = Some (started, calls) /\
    Camera._running started = true /\
    Camera._idle started = true /\
    Camera._resolution started = Camera.resolution (Camera._config self) /\
    Camera.set_idle started true = (started, []).
Proof.
  destruct self as [config capture running res idle]. simpl.
  intros -> ->. destruct capture; do 2 eexists; repeat split.
Qed.

Lemma restart_in_idle_mode_keeps_full_resolution_witness :
  exists (started : Camera.CameraStream) (calls : list Camera.CaptureCall),
    Camera.start
      (fst (Camera.stop
              {| Camera._config := Camera.default_camera;
                 Camera._capture := true;
                 Camera._running := true;
                 Camera._resolution := (640, 360)%Z;
                 Camera._idle := true |})) true = Some (started, calls) /\
    Camera._resolution started = (960, 540)%Z /\
    Camera._idle started = true.
Proof.
  destruct (restart_in_idle_mode_keeps_full_resolution
              {| Camera._config := Camera.default_camera;
                 Camera._capture := true;
                 Camera._running := true;
                 Camera._resolution := (640, 360)%Z;
                 Camera._idle := true |} eq_refl eq_refl)
    as (started & calls & E & _ & I & R & _).
  exists started, calls. repeat split; assumption.
Defined.

Section UpdateLoop.
Variable frame : Set.
Variable config : Camera.CameraConfig.
Hypothesis skipping : (0 < Camera.idle_frame_skip config)%Z.

(** Idle reads that do not fill the counter are all dropped. *)
Lemma update_loop_skips (skipped : list (Camera.Read frame)) :
  forall (idle_skip : Z) (rest : list (Camera.Read frame)),
    (0 <= idle_skip)%Z ->
    (idle_skip + Z.of_nat (List.length skipped)
     <= Camera.idle_frame_skip config)%Z ->
    Forall Camera.idle_read skipped ->
    Camera._update_loop config idle_skip (skipped ++ rest)
    = Camera._update_loop config
        (idle_skip + Z.of_nat (List.length skipped)) rest.
Proof.
  induction skipped as [|r skipped IH]; intros idle_skip rest P B F.
  - simpl. now rewrite Z.add_0_r.
  - inversion F as [|? ? [R I] F']; subst.
    change ((r :: skipped) ++ rest) with (r :: skipped ++ rest).
    cbn [Camera._update_loop]. rewrite R, I. simpl negb. cbn iota.
    assert (K : (0 <? Camera.idle_frame_skip config)%Z = true)
      by now apply Z.ltb_lt.
    rewrite K. simpl andb. cbn iota.
    cbn [List.length] in B. rewrite Nat2Z.inj_succ in B.
    rewrite Z.mod_small by lia.
    assert (N : (idle_skip + 1 =? 0)%Z = false) by (apply Z.eqb_neq; lia).
    rewrite N. simpl negb. cbn iota.
    rewrite IH by (trivial; lia). f_equal.
    cbn [List.length]. lia.
Qed.

(** The read that fills the counter is kept, and the counter starts
    again. *)
Lemma update_loop_keeps (kept : Camera.Read frame)
    (rest : list (Camera.Read frame)) :
  Camera.idle_read kept ->
  Camera._update_loop config (Camera.idle_frame_skip config) (kept :: rest)
  = (fst (Camera._update_loop config 0 rest),
     Camera.image kept :: snd (Camera._update_loop config 0 rest)).
Proof.
  intros [R I]. cbn [Camera._update_loop]. rewrite R, I. simpl negb. cbn iota.
  assert (K : (0 <? Camera.idle_frame_skip config)%Z = true)
    by now apply Z.ltb_lt.
  rewrite K. simpl andb. cbn iota.
  rewrite Z.mod_same by lia. simpl.
  now destruct (Camera._update_loop config 0 rest).
Qed.

End UpdateLoop.

(** X18: with [idle_frame_skip = k > 0] and the camera idle, of every
    [k + 1] frames read in a row [_update_loop] drops the first [k] and
    stores the last one, and its counter is back at 0 after each of these
    groups. *)
Theorem idle_mode_keeps_one_frame_in_k_plus_one
    (frame : Set) (config : Camera.CameraConfig)
    (groups : list (list (Camera.Read frame) * Camera.Read frame)) :
  (0 < Camera.idle_frame_skip config)%Z ->
  Forall (fun group =>
            Z.of_nat (List.length (fst group)) = Camera.idle_frame_skip config
            /\ Forall Camera.idle_read (fst group)
            /\ Camera.idle_read (snd group)) groups ->
  Camera._update_loop config 0
    (List.concat (map (fun group => fst group ++ [snd group]) groups))
  = (0%Z, map (fun group => Camera.image (snd group)) groups).
Proof.
  intros K H. induction H as [|[skipped kept] groups (L & F & R) _ IH]; simpl.
  - reflexivity.
  - simpl in L, F, R. rewrite <- app_assoc.
    rewrite (update_loop_skips frame config K skipped 0) by (trivial; lia).
    rewrite Z.add_0_l, L.
    match goal with
    | |- context [[kept] ++ ?rest] => change ([kept] ++ rest) with (kept :: rest)
    end.
    rewrite (update_loop_keeps frame config K kept _ R), IH. reflexivity.
Qed.

Lemma idle_mode_keeps_one_frame_in_k_plus_one_witness :
  Camera._update_loop Camera.default_camera 0
    (map (fun n => {| Camera.ret := true; Camera.image := n;
                      Camera.idle_now := true |}) [1; 2; 3; 4; 5; 6]%nat)
  = (0%Z, [3; 6]%nat).
Proof.
  apply (idle_mode_keeps_one_frame_in_k_plus_one nat Camera.default_camera
           [([{| Camera.ret := true; Camera.image := 1%nat;
                 Camera.idle_now := true |};
              {| Camera.ret := true; Camera.image := 2%nat;
                 Camera.idle_now := true |}],
             {| Camera.ret := true; Camera.image := 3%nat;
                Camera.idle_now := true |});
            ([{| Camera.ret := true; Camera.image := 4%nat;
                 Camera.idle_now := true |};
              {| Camera.ret := true; Camera.image := 5%nat;
                 Camera.idle_now := true |}],
             {| Camera.ret := true; Camera.image := 6%nat;
                Camera.idle_now := true |})]).
  - reflexivity.
  - repeat constructor.
Defined.

(** X19: outside the idle mode, and in it when [idle_frame_skip] is not
    above 0, [_update_loop] stores every frame that is read with success,
    in order, and does not touch its counter; a read that fails stores
    nothing. *)
Theorem every_frame_is_kept_without_skipping
    (frame : Set) (config : Camera.CameraConfig)
    (reads : list (Camera.Read frame)) (idle_skip : Z) :
  (Camera.idle_frame_skip config <= 0)%Z
  \/ Forall (fun r => Camera.idle_now r = false) reads ->
  Camera._update_loop config idle_skip reads
  = (idle_skip, map Camera.image (filter Camera.ret reads)).
Proof.
  intros H. induction reads as [|r reads IH]; simpl; [reflexivity|].
  assert (H' : (Camera.idle_frame_skip config <= 0)%Z
               \/ Forall (fun r => Camera.idle_now r = false) reads).
  { destruct H as [H|H]; [now left|right; now inversion H]. }
  assert (N : Camera.idle_now r && (0 <? Camera.idle_frame_skip config)%Z
              = false).
  { destruct H as [H|H].
    - apply andb_false_intro2. apply Z.ltb_ge. exact H.
    - inversion H as [|? ? E]; subst. now rewrite E. }
  rewrite N, (IH H'). now destruct (Camera.ret r).
Qed.

Lemma every_frame_is_kept_without_skipping_witness :
  Camera._update_loop Camera.default_camera 1
    [{| Camera.ret := true; Camera.image := 7%nat; Camera.idle_now := false |};
     {| Camera.ret := false; Camera.image := 8%nat; Camera.idle_now := false |};
     {| Camera.ret := true; Camera.image := 9%nat; Camera.idle_now := false |}]
  = (1%Z, [7; 9]%nat).
Proof.
  apply (every_frame_is_kept_without_skipping nat Camera.default_camera
           [{| Camera.ret := true; Camera.image := 7%nat;
               Camera.idle_now := false |};
            {| Camera.ret := false; Camera.image := 8%nat;
               Camera.idle_now := false |};
            {| Camera.ret := true; Camera.image := 9%nat;
               Camera.idle_now := false |}] 1).
  right. repeat constructor.
Defined.

(** ** The application *)

Lemma app_loop_waits (rounds : list App.Round) :
  App.waits_before_runs (App.loop false rounds).
Proof.
  induction rounds as [|r rounds IH]; simpl; [exact I|].
  destruct (App.shutdown_at_test r); [exact I|].
  destruct (App.shutdown_before_run r); [exact I|]. simpl.
  destruct (App.shutdown_after_run r || App.engine_stop_set r);
    [exact I|exact IH].
Qed.

(** X20: [VirtualMouseApp.run] starts the engine without waiting at most
    once, as its first step and only when asked to start at once (by the
    argument, or by the configuration when there is no argument); every
    other engine run comes directly after a wait for the activation. *)
Theorem app_waits_for_activation_before_each_run
    (config_auto_start : bool) (auto_start : option bool)
    (rounds : list App.Round) :
  let effects := App.run config_auto_start auto_start rounds in
  if match auto_start with None => config_auto_start | Some b => b end
  then effects = []
       \/ exists later : list App.AppEffect,
            effects = App.EngineRun :: later /\ App.waits_before_runs later
  else App.waits_before_runs effects.
Proof.
  unfold App.run.
  destruct (match auto_start with None => config_auto_start | Some b => b end).
  - destruct rounds as [|r rounds]; simpl; [now left|].
    destruct (App.shutdown_at_test r); [now left|].
    destruct (App.shutdown_before_run r); [now left|]. right. simpl.
    eexists. split; [reflexivity|].
    destruct (_ || _); [exact I|apply app_loop_waits].
  - apply app_loop_waits.
Qed.

(** ** The engine and its collaborators, frame by frame *)

Lemma idle_flags_app (effects later : list Engine.Effect) :
  idle_flags (effects ++ later) = idle_flags effects ++ idle_flags later.
Proof.
  induction effects as [|e effects IH]; simpl; [reflexivity|].
  destruct e; simpl; now rewrite IH.
Qed.

Lemma idle_flags_pointer (calls : list Engine.PointerCall) :
  idle_flags (map Engine.Pointer calls) = [].
Proof. induction calls; simpl; trivial. Qed.

(** X21: over iterations that all continue (debug view off), the engine
    makes one call on the classifier per frame, [process] for a frame with a
    hand and [reset] for one without, so the classifier is in the state that
    these calls alone lead to; it tells the camera once per frame whether
    the frame had no hand; and the hand was last seen at the timestamp of
    the last observation, or at the start when there was none. *)
Theorem engine_drives_classifier_frame_by_frame
    (screen_w screen_h : Z) (before : list Engine.Tick) :
  forall (self0 : Engine.VirtualMouseEngine) (start : float)
         (self : Engine.VirtualMouseEngine) (last_seen : float)
         (shown : list Engine.Effect),
    show_debug (app (Engine._config self0)) = false ->
    Engine.advance screen_w screen_h self0 start before
      = Some (self, last_seen, shown) ->
    Engine._gestures self
    = fst (calls (Engine._gestures self0) (map call_of_tick before)) /\
    idle_flags shown = map no_hand before /\
    last_seen = last_seen_after start before.
Proof.
  induction before as [|t before IH];
    intros self0 start self last_seen shown D A; simpl in A.
  - injection A as <- <- <-. repeat split.
  - pose proof (tick_button screen_w screen_h self0 start t D) as T.
    rewrite (tick_debug_off _ _ _ _ _ D) in A, T.
    unfold last_seen_after, call_of_tick, no_hand. simpl.
    destruct (Engine.stop_is_set t); [discriminate|].
    destruct (Engine.detected t) as [observation|]; cbv zeta in A, T.
    + destruct (Engine._apply_gesture _ _ screen_w screen_h)
        as [e|[s pcalls]] eqn:G; [discriminate|].
      destruct (apply_gesture_button _ _ _ _ _ _ G) as (C & Gs & _).
      simpl in Gs.
      assert (D' : show_debug (app (Engine._config s)) = false)
        by (rewrite C; exact D).
      destruct (Engine.advance screen_w screen_h s (timestamp observation) before)
        as [[[s' l'] e']|] eqn:A'; [|discriminate].
      injection A as <- <- <-.
      destruct (IH _ _ _ _ _ D' A') as (I1 & I2 & I3).
      rewrite Gs in I1. unfold last_seen_after, call_of_tick, no_hand in *.
      destruct (process (Engine._gestures self0) observation) as [g r].
      simpl in *.
      destruct (calls g _) as [g' rs] eqn:K.
      simpl in *. split; [exact I1|]. split; [|exact I3].
      rewrite idle_flags_app, idle_flags_pointer. simpl. now rewrite I2.
    + destruct (_ && _); [discriminate|].
      destruct (Engine.advance screen_w screen_h _ start before)
        as [[[s' l'] e']|] eqn:A'; [|discriminate].
      injection A as <- <- <-.
      destruct (IH (Engine.set_gestures self0 (reset (Engine._gestures self0)))
                  start s' l' e' D A') as (I1 & I2 & I3).
      unfold last_seen_after, call_of_tick, no_hand in *.
      simpl in *. split; [exact I1|]. split; [|exact I3]. now rewrite I2.
Qed.

Lemma engine_drives_classifier_frame_by_frame_witness :
  exists (self : Engine.VirtualMouseEngine) (last_seen : float)
         (shown : list Engine.Effect),
    Engine.advance 1366 768 (Engine.init Config.default) 0
      [seen (pinch 1); lost 1.2; seen (pinch 1.3)]
      = Some (self, last_seen, shown) /\
    idle_flags shown = [false; true; false] /\
    last_seen = 1.3.
Proof.
  destruct (Engine.advance 1366 768 (Engine.init Config.default) 0
              [seen (pinch 1); lost 1.2; seen (pinch 1.3)])
    as [[[self last_seen] shown]|] eqn:A; [|vm_compute in A; discriminate].
  destruct (engine_drives_classifier_frame_by_frame 1366 768
              [seen (pinch 1); lost 1.2; seen (pinch 1.3)]
              (Engine.init Config.default) 0 self last_seen shown eq_refl A)
    as (_ & F & L).
  exists self, last_seen, shown. repeat split; assumption.
Defined.

Lemma loop_idle_timeout (screen_w screen_h : Z) (ticks : list Engine.Tick) :
  forall (self0 : Engine.VirtualMouseEngine) (start : float)
         (final : Engine.VirtualMouseEngine) (effects : list Engine.Effect),
    show_debug (app (Engine._config self0)) = false ->
    Engine.loop screen_w screen_h self0 start ticks
      = (final, effects, inr "idle_timeout"%string) ->
    exists (before : list Engine.Tick) (t : Engine.Tick)
           (after : list Engine.Tick) (self : Engine.VirtualMouseEngine)
           (last_seen : float) (shown : list Engine.Effect),
      ticks = before ++ t :: after /\
      Engine.advance screen_w screen_h self0 start before
        = Some (self, last_seen, shown) /\
      Engine.stop_is_set t = false /\
      Engine.detected t = None /\
      gt (max_inactive_seconds (app (Engine._config self0))) 0 = true /\
      gt (Engine.loop_time t - last_seen)
         (max_inactive_seconds (app (Engine._config self0))) = true.
Proof.
  induction ticks as [|t ticks IH]; intros self0 start final effects D L;
    simpl in L; [discriminate|].
  pose proof (tick_button screen_w screen_h self0 start t D) as T.
  destruct (Engine.tick screen_w screen_h self0 start t) as [[[s l] e] f] eqn:K.
  destruct T as [C _].
  assert (D' : show_debug (app (Engine._config s)) = false) by congruence.
  destruct f as [|reason|exc].
  - destruct (Engine.loop screen_w screen_h s l ticks) as [[s' e'] o] eqn:L'.
    injection L as <- <- ->.
    destruct (IH s l s' e' D' L')
      as (before & t' & after & self & last_seen & shown
          & -> & A & S & N & M & I).
    exists (t :: before), t', after, self, last_seen, (e ++ shown).
    rewrite C in M, I. repeat split; trivial.
    simpl. now rewrite K, A.
  - injection L as <- <- ->.
    exists [], t, ticks, self0, start, []. split; [reflexivity|].
    split; [reflexivity|].
    rewrite (tick_debug_off _ _ _ _ _ D) in K.
    destruct (Engine.stop_is_set t); [discriminate|].
    destruct (Engine.detected t) as [observation|]; cbv zeta in K.
    + destruct (Engine._apply_gesture _ _ _ _) as [?|[? ?]]; discriminate.
    + destruct (gt _ 0) eqn:M; simpl in K; [|discriminate].
      destruct (gt (_ - _) _) eqn:I; [|discriminate].
      repeat split; trivial.
  - discriminate.
Qed.

(** X22: a run (debug view off) returns the reason ["idle_timeout"] only
    at a frame without a hand, reached with no stop requested, when
    [max_inactive_seconds] is above 0 and the clock of the event loop is
    more than that after the time at which a hand was last seen; every
    frame before it continued the loop. *)
Theorem idle_timeout_only_after_inactivity
    (self0 : Engine.VirtualMouseEngine) (screen : Z * Z) (start : float)
    (ticks : list Engine.Tick) :
  show_debug (app (Engine._config self0)) = false ->
  snd (Engine.run self0 screen start ticks)
    = inr {| Engine.reason := "idle_timeout" |} ->
  exists (before : list Engine.Tick) (t : Engine.Tick)
         (after : list Engine.Tick) (self : Engine.VirtualMouseEngine)
         (last_seen : float) (shown : list Engine.Effect),
    ticks = before ++ t :: after /\
    Engine.advance (fst screen) (snd screen) self0 start before
      = Some (self, last_seen, shown) /\
    Engine.stop_is_set t = false /\
    Engine.detected t = None /\
    gt (max_inactive_seconds (app (Engine._config self0))) 0 = true /\
    gt (Engine.loop_time t - last_seen)
       (max_inactive_seconds (app (Engine._config self0))) = true.
Proof.
  intros D. unfold Engine.run, Engine.run_from.
  destruct (Engine.loop (fst screen) (snd screen) self0 start ticks)
    as [[s e] o] eqn:L.
  destruct (Engine.finally_ s) as [s' c]. simpl.
  destruct o as [exc|reason]; [discriminate|]. intros [= ->].
  exact (loop_idle_timeout _ _ ticks self0 start s e D L).
Qed.

Lemma idle_timeout_only_after_inactivity_witness :
  exists (before : list Engine.Tick) (t : Engine.Tick)
         (after : list Engine.Tick),
    [seen (pinch 1); lost 11.2; lost 12] = before ++ t :: after /\
    Engine.detected t = None.
Proof.
  destruct (idle_timeout_only_after_inactivity (Engine.init Config.default)
              (1366, 768)%Z 0 [seen (pinch 1); lost 11.2; lost 12]
              eq_refl eq_refl)
    as (before & t & after & _ & _ & _ & E & _ & _ & N & _).
  exists before, t, after. split; assumption.
Defined.

(** ** The conversion of [debounce_ms] *)

Lemma checked_process_agrees
    (self : GestureController) (observation : HandObservation) :
  pinched self observation = false
  \/ _last_pinched self = true
  \/ (exists ms : float,
        Checked.float_of_int (debounce_ms (_config self)) = inr ms) ->
  Checked.process self observation
  = (fst (process self observation), inr (snd (process self observation))).
Proof.
  intros H. pose proof (compute_pointer_frame self observation) as F.
  unfold Checked.process, process, pinched in *.
  destruct (_compute_pointer self observation) as [s p]. simpl in F.
  destruct F as (Fc & Fp & Ft & Fd).
  destruct (scroll_check (_config s) _) as [g d].
  rewrite Fc, Fp.
  destruct (_distance observation 4 8 <? click_threshold (_config self));
    [|reflexivity].
  destruct (_last_pinched self); [reflexivity|].
  destruct H as [H|[H|[ms H]]]; try discriminate.
  unfold Checked._is_debounced, _is_debounced. rewrite Fc, Ft, H. simpl.
  assert (E : float_of_int (debounce_ms (_config self)) = ms).
  { revert H. unfold Checked.float_of_int, float_of_int.
    destruct (binary_normalize _ _ _ _ _); congruence. }
  rewrite E. now destruct (gt _ _).
Qed.

(** C5 (as the code has it): for an observation with fewer than nine
    landmarks [process] returns the gesture [IDLE] and no pointer, without
    raising, whenever the click threshold is not above the distance 1.0 that
    stands for the missing fingertip, or the frame before had a pinch, or
    [debounce_ms] converts to a float. *)
Theorem missing_fingertip_is_idle_unless_overflow
    (self : GestureController) (observation : HandObservation) :
  (List.length (landmarks observation) < 9)%nat ->
  (1 <? click_threshold (_config self)) = false
  \/ _last_pinched self = true
  \/ (exists ms : float,
        Checked.float_of_int (debounce_ms (_config self)) = inr ms) ->
  exists result : GestureResult,
    snd (Checked.process self observation) = inr result /\
    gesture result = IDLE /\
    pointer result = None.
Proof.
  intros L H.
  assert (P : pinched self observation
              = (1 <? click_threshold (_config self))).
  { unfold pinched, _distance.
    assert (N : landmark_at observation 8 = None)
      by (apply nth_error_None; lia).
    rewrite N. now destruct (landmark_at observation 4). }
  rewrite checked_process_agrees by (rewrite P; exact H).
  exists (snd (process self observation)). split; [reflexivity|].
  now apply missing_fingertip_is_idle.
Qed.

Lemma missing_fingertip_is_idle_unless_overflow_witness :
  exists result : GestureResult,
    snd (Checked.process (init default_gesture) (cut_short 0.1)) = inr result /\
    gesture result = IDLE /\
    pointer result = None.
Proof.
  apply (missing_fingertip_is_idle_unless_overflow (init default_gesture)
           (cut_short 0.1)).
  - simpl. lia.
  - left. reflexivity.
Defined.

(** C5, the counterexample: with a click threshold of 2 and a
    [debounce_ms] of [10^400], the observation cut after eight landmarks
    counts as a pinch (distance 1.0), and on a new controller the call
    raises [OverflowError] in [debounce_ms / 1000.0]. *)
Lemma missing_fingertip_raises_overflow :
  (List.length (landmarks (cut_short 0.1)) < 9)%nat /\
  snd (Checked.process (init Corner.wide_click_huge_debounce) (cut_short 0.1))
  = inl OverflowError.
Proof. split; [simpl; lia|vm_compute; reflexivity]. Qed.

Lemma checked_process_raises
    (self : GestureController) (observation : HandObservation) (e : PyExc) :
  pinched self observation = true ->
  _last_pinched self = false ->
  Checked.float_of_int (debounce_ms (_config self)) = inl e ->
  Checked.process self observation
  = (fst (_compute_pointer self observation), inl e).
Proof.
  intros P L H. pose proof (compute_pointer_frame self observation) as F.
  unfold Checked.process, pinched in *.
  destruct (_compute_pointer self observation) as [s p]. simpl in F.
  destruct F as (Fc & Fp & Ft & Fd).
  destruct (scroll_check (_config s) _) as [g d].
  rewrite Fc, Fp, P, L. unfold Checked._is_debounced. now rewrite Fc, H.
Qed.

(** ** A hand lost during a drag *)

Lemma advance_app (screen_w screen_h : Z) (before : list Engine.Tick) :
  forall (self0 : Engine.VirtualMouseEngine) (start : float)
         (self : Engine.VirtualMouseEngine) (last_seen : float)
         (shown : list Engine.Effect) (ticks : list Engine.Tick),
    Engine.advance screen_w screen_h self0 start before
      = Some (self, last_seen, shown) ->
    Engine.advance screen_w screen_h self0 start (before ++ ticks)
    = match Engine.advance screen_w screen_h self last_seen ticks with
      | Some (self', last_seen', later) =>
          Some (self', last_seen', shown ++ later)
      | None => None
      end.
Proof.
  induction before as [|t before IH];
    intros self0 start self last_seen shown ticks A.
  - simpl in A. injection A as <- <- <-. simpl.
    now destruct (Engine.advance _ _ _ _ ticks) as [[[? ?] ?]|].
  - simpl in *.
    destruct (Engine.tick screen_w screen_h self0 start t) as [[[s l] e] f].
    destruct f; try discriminate.
    destruct (Engine.advance screen_w screen_h s l before)
      as [[[s' l'] e']|] eqn:A'; try discriminate.
    injection A as <- <- <-.
    rewrite (IH _ _ _ _ _ ticks A').
    destruct (Engine.advance _ _ s' l' ticks) as [[[? ?] ?]|];
      [now rewrite app_assoc|reflexivity].
Qed.

(** With the idle timeout and the debug view off, frames without a hand
    continue the loop, however many they are and whatever the clock shows,
    and none of them touches the button. *)
Lemma lost_frames_keep_button (screen_w screen_h : Z) (times : list float) :
  forall (self : Engine.VirtualMouseEngine) (last_seen : float),
    show_debug (app (Engine._config self)) = false ->
    gt (max_inactive_seconds (app (Engine._config self))) 0 = false ->
    exists (self' : Engine.VirtualMouseEngine) (shown : list Engine.Effect),
      Engine.advance screen_w screen_h self last_seen (map lost times)
        = Some (self', last_seen, shown) /\
      Engine._dragging self' = Engine._dragging self /\
      Engine.releases shown = 0%nat.
Proof.
  induction times as [|now times IH]; intros self last_seen D M.
  - exists self, []. repeat split.
  - simpl. rewrite (tick_debug_off _ _ _ _ _ D). simpl. rewrite M. simpl.
    destruct (IH (Engine.set_gestures self (reset (Engine._gestures self)))
                 last_seen D M) as (self' & shown & A & G & R).
    rewrite A. do 2 eexists. split; [reflexivity|]. split; [exact G|exact R].
Qed.

(** C1: after a click and a drag the engine holds the button.  A frame
    without a hand then makes the engine reset the classifier, but it
    releases nothing and leaves [_dragging] true, and the loop goes on; with
    the idle timeout off this lasts for as many such frames as come,
    whatever the clock shows. *)
Theorem lost_hand_leaves_button_held :
  (exists (self : Engine.VirtualMouseEngine) (last_seen : float)
          (shown : list Engine.Effect),
     Engine.advance 1366 768 (Engine.init Config.default) 0
       [seen (pinch 1); seen (pinch 1.1); lost 1.2]
       = Some (self, last_seen, shown) /\
     In (Engine.Pointer Engine.Press) shown /\
     In Engine.GesturesReset shown /\
     Engine.releases shown = 0%nat /\
     Engine._dragging self = true) /\
  (forall times : list float,
     exists (self : Engine.VirtualMouseEngine) (last_seen : float)
            (shown : list Engine.Effect),
       Engine.advance 1366 768 (Engine.init Corner.no_timeout) 0
         ([seen (pinch 1); seen (pinch 1.1)] ++ map lost times)
         = Some (self, last_seen, shown) /\
       In (Engine.Pointer Engine.Press) shown /\
       Engine.releases shown = 0%nat /\
       Engine._dragging self = true).
Proof.
  split.
  - vm_compute. do 3 eexists. split; [reflexivity|].
    repeat split; simpl; auto 20.
  - intros times.
    destruct (Engine.advance 1366 768 (Engine.init Corner.no_timeout) 0
                [seen (pinch 1); seen (pinch 1.1)])
      as [[[held last_seen] pressed]|] eqn:A; [|vm_compute in A; discriminate].
    assert (H : Engine._dragging held = true
                /\ Engine._config held = Corner.no_timeout
                /\ Engine.releases pressed = 0%nat
                /\ In (Engine.Pointer Engine.Press) pressed).
    { vm_compute in A. injection A as <- _ <-. repeat split. simpl. auto 20. }
    destruct H as (G & C & R & P).
    destruct (lost_frames_keep_button 1366 768 times held last_seen)
      as (self' & shown & A' & G' & R'); try (rewrite C; reflexivity).
    rewrite (advance_app _ _ _ _ _ _ _ _ (map lost times) A), A'.
    exists self', last_seen, (pressed ++ shown). split; [reflexivity|].
    split; [apply in_or_app; now left|].
    split; [|congruence].
    unfold Engine.releases in *. now rewrite filter_app, length_app, R, R'.
Qed.

(** ** The button over a whole run *)

Lemma button_after_rejects :
  Button.button_after false
    [Engine.Pointer Engine.Press; Engine.Pointer Engine.Press] = None /\
  Button.button_after false [Engine.Pointer Engine.Release] = None /\
  Button.button_after true [Engine.Pointer Engine.Click] = None /\
  Button.button_after true
    [Engine.Pointer Engine.Click; Engine.Sleep; Engine.Pointer Engine.Release]
  = None /\
  Button.button_after false
    [Engine.Pointer Engine.Click; Engine.Pointer Engine.Release] = None.
Proof. repeat split. Qed.

(** The calls of one [_apply_gesture] take the button from what the flag
    said before to what it says after. *)
Lemma apply_gesture_button_after (self self' : Engine.VirtualMouseEngine)
    (event : GestureResult) (screen_w screen_h : Z)
    (pcalls : list Engine.PointerCall) (later : list Engine.Effect) :
  Engine._apply_gesture self event screen_w screen_h = inr (self', pcalls) ->
  Button.button_after (Engine._dragging self)
    (map Engine.Pointer pcalls ++ later)
  = Button.button_after (Engine._dragging self') later.
Proof.
  unfold Engine._apply_gesture.
  destruct (Engine.move_call _ _ _) as [e|moves] eqn:M; [discriminate|].
  assert (Mv : moves = [] \/ exists px py, moves = [Engine.Move px py]).
  { revert M. unfold Engine.move_call.
    destruct (pointer event) as [[px py]|]; [|intros [= <-]; now left].
    destruct (py_int _); [discriminate|]. destruct (py_int _); [discriminate|].
    intros [= <-]. right. eauto. }
  destruct (gesture event); simpl; destruct (is_click event); simpl;
    destruct (Engine._dragging self) eqn:G; simpl;
    try destruct (truthy (scroll_delta event)); simpl;
    intros [= <- <-]; simpl;
    destruct Mv as [->|(px & py & ->)]; simpl; rewrite ?G; reflexivity.
Qed.

Lemma tick_button_after (screen_w screen_h : Z)
    (self : Engine.VirtualMouseEngine) (last_seen : float) (t : Engine.Tick)
    (later : list Engine.Effect) :
  show_debug (app (Engine._config self)) = false ->
  let '(self', _, effects, _) :=
    Engine.tick screen_w screen_h self last_seen t in
  Engine._config self' = Engine._config self /\
  Button.button_after (Engine._dragging self) (effects ++ later)
  = Button.button_after (Engine._dragging self') later.
Proof.
  intros D. rewrite (tick_debug_off _ _ _ _ _ D).
  destruct (Engine.stop_is_set t); [split; reflexivity|].
  destruct (Engine.detected t) as [observation|].
  - cbv zeta.
    destruct (Engine._apply_gesture _ _ screen_w screen_h)
      as [e|[self' pcalls]] eqn:A.
    + split; reflexivity.
    + destruct (apply_gesture_button _ _ _ _ _ _ A) as (C & _).
      split; [exact C|].
      rewrite <- app_assoc. simpl.
      exact (apply_gesture_button_after _ _ _ _ _ _ later A).
  - cbv zeta. destruct (_ && _); split; reflexivity.
Qed.

Lemma loop_button_after (screen_w screen_h : Z) (ticks : list Engine.Tick)
    (later : list Engine.Effect) :
  forall (self : Engine.VirtualMouseEngine) (last_seen : float),
    show_debug (app (Engine._config self)) = false ->
    let '(self', effects, _) :=
      Engine.loop screen_w screen_h self last_seen ticks in
    Button.button_after (Engine._dragging self) (effects ++ later)
    = Button.button_after (Engine._dragging self') later.
Proof.
  induction ticks as [|t ticks IH]; intros self last_seen D; simpl.
  - reflexivity.
  - pose proof (tick_button_after screen_w screen_h self last_seen t) as T.
    destruct (Engine.tick screen_w screen_h self last_seen t)
      as [[[s l] e] f].
    destruct f; try exact (proj2 (T later D)).
    assert (D' : show_debug (app (Engine._config s)) = false).
    { rewrite (proj1 (T later D)). exact D. }
    specialize (IH s l D').
    destruct (Engine.loop screen_w screen_h s l ticks) as [[s' e'] o].
    rewrite <- app_assoc. now rewrite (proj2 (T (e' ++ later) D)).
Qed.

(** X9: in a run with the debug view off, started with the button as the
    flag [_dragging] says and however the run ends, the calls of the engine
    use the button in order, [click] counted as the press and release that
    it is: [press] is called only with the button up; [click] is called
    with the button down only when [release] is the next call, which then
    finds the button already up; every other [release] finds the button
    down; and when the run is over the button is up and [_dragging] is
    false. *)
Theorem run_leaves_button_up
    (self : Engine.VirtualMouseEngine) (screen : Z * Z) (start : float)
    (ticks : list Engine.Tick) :
  show_debug (app (Engine._config self)) = false ->
  let '(final, effects, _) := Engine.run self screen start ticks in
  Button.button_after (Engine._dragging self) effects = Some false /\
  Engine._dragging final = false.
Proof.
  intros D. unfold Engine.run, Engine.run_from, Engine.finally_.
  destruct (Engine.loop (fst screen) (snd screen) self start ticks)
    as [[s e] o] eqn:L.
  destruct (Engine._dragging s) eqn:G.
  - pose proof (loop_button_after (fst screen) (snd screen) ticks
                  [Engine.CameraStop; Engine.Pointer Engine.Release]
                  self start D) as B.
    rewrite L, G in B. simpl. rewrite B. split; reflexivity.
  - pose proof (loop_button_after (fst screen) (snd screen) ticks
                  [Engine.CameraStop] self start D) as B.
    rewrite L, G in B. simpl. rewrite B. split; [reflexivity|exact G].
Qed.

Lemma run_leaves_button_up_witness :
  filter Engine.is_pointer
    (snd (fst (Engine.run (Engine.init Config.default) (1366, 768)%Z 0
                 [seen (pinch 1); seen (pinch 1.1); lost 1.2;
                  seen (pinch 1.3); seen (pinch 1.4)])))
  = [Engine.Pointer (Engine.Move 819 460); Engine.Pointer Engine.Click;
     Engine.Pointer (Engine.Move 819 460); Engine.Pointer Engine.Press;
     Engine.Pointer (Engine.Move 819 460); Engine.Pointer Engine.Click;
     Engine.Pointer Engine.Release;
     Engine.Pointer (Engine.Move 819 460); Engine.Pointer Engine.Press;
     Engine.Pointer Engine.Release] /\
  Button.button_after false
    (snd (fst (Engine.run (Engine.init Config.default) (1366, 768)%Z 0
                 [seen (pinch 1); seen (pinch 1.1); lost 1.2;
                  seen (pinch 1.3); seen (pinch 1.4)])))
  = Some false.
Proof.
  split; [vm_compute; reflexivity|].
  pose proof (run_leaves_button_up (Engine.init Config.default)
                (1366, 768)%Z 0
                [seen (pinch 1); seen (pinch 1.1); lost 1.2;
                 seen (pinch 1.3); seen (pinch 1.4)]
                eq_refl) as H.
  destruct (Engine.run _ _ _ _) as [[final effects] outcome].
  exact (proj1 H).
Defined.
